(** * Session management of the Vite/React/TypeScript template

    A shallow embedding of the authentication core of the template:

    - [core/config/types.ts]      : [ApiResponse], [User], [AuthConfig];
    - [core/api/fetch.ts]         : [getFetch], [withAuth];
    - [core/auth/AuthContext.tsx] : [defaultAuthConfig], the provider's
      state, its mount effect, [login], [logout], [updateUser],
      [verifyToken], [refreshAccessToken];
    - [core/config/protectedRoute.tsx] : the guard's rendering decision.

    The browser's [localStorage] is a finite map from strings to strings,
    the five [useState] cells of the provider are a record, and the remote
    server is an oracle consulted by [getFetch].  Every operation is a
    computation in a small state monad over the [World]. *)

From Stdlib Require Import ZArith String List Lia.
From stdpp Require Import base option strings pretty gmap.

Local Open Scope Z_scope.
Local Open Scope string_scope.

(** ** JavaScript values of type [string | null | undefined] *)

(** A value of type [string | null] (or an optional [string] argument) is
    an [option string]; JavaScript's truthiness makes the empty string
    count as absent wherever the code writes [if (x)], [!x] or [x || y]. *)
Definition truthy (x : option string) : option string :=
  match x with
  | Some s => if decide (s = "") then None else Some s
  | None => None
  end.

(** [x || y] on such values. *)
Definition or_else (x y : option string) : option string :=
  match truthy x with
  | Some s => Some s
  | None => y
  end.

(** [k!] followed by the conversion of the storage API: an absent key is
    turned into the text [undefined]. *)
Definition key_coerce (k : option string) : string := default "undefined" k.

(** [haystack.includes(needle)] *)
Definition includes (haystack needle : string) : bool :=
  match String.index 0 needle haystack with
  | Some _ => true
  | None => false
  end.

(** ** [core/config/types.ts] *)

Record ApiResponse (T : Type) : Type := mkApiResponse {
  status : Z;
  data : option T;
  error : option string;
  success : bool
}.
Arguments mkApiResponse {T} _ _ _ _.
Arguments status {T} _.
Arguments data {T} _.
Arguments error {T} _.
Arguments success {T} _.

(** [User]: the two mandatory fields, the optional [name], and the
    open-ended index signature kept as named attributes. *)
Record User : Type := mkUser {
  id : string;
  email : string;
  name : option string;
  attributes : list (string * string)
}.

Record Endpoints : Type := mkEndpoints {
  verify : string;
  refresh : option string
}.

Record Storage : Type := mkStorage {
  tokenKey : string;
  refreshTokenKey : option string;
  userKey : option string
}.

Record AuthConfig : Type := mkAuthConfig {
  endpoints : Endpoints;
  storage : Storage;
  autoVerify : bool
}.

(** [Partial<AuthConfig>]: each of the three top-level properties may be
    missing; a property that is given carries a whole value of its type. *)
Record PartialAuthConfig : Type := mkPartialAuthConfig {
  p_endpoints : option Endpoints;
  p_storage : option Storage;
  p_autoVerify : option bool
}.

(** ** [core/auth/AuthContext.tsx]: configuration *)

Definition defaultAuthConfig : AuthConfig :=
  {| endpoints := {| verify := "/auth/me"; refresh := Some "/auth/refresh" |};
     storage := {| tokenKey := "authToken";
                   refreshTokenKey := Some "refreshToken";
                   userKey := Some "user" |};
     autoVerify := true |}.

(** [{ ...defaultAuthConfig, ...customConfig }]: the object spread copies
    the own properties of [customConfig] over those of the defaults, one
    top-level property at a time; spreading [undefined] copies nothing. *)
Definition spread (defaults : AuthConfig) (custom : option PartialAuthConfig)
    : AuthConfig :=
  match custom with
  | None => defaults
  | Some c =>
      {| endpoints := default (endpoints defaults) (p_endpoints c);
         storage := default (storage defaults) (p_storage c);
         autoVerify := default (autoVerify defaults) (p_autoVerify c) |}
  end.

(** The value that a custom configuration gives for one top-level option. *)
Definition given {A : Type} (custom : option PartialAuthConfig)
    (f : PartialAuthConfig -> option A) : option A :=
  match custom with
  | Some c => f c
  | None => None
  end.

Definition effectiveConfig (customConfig : option PartialAuthConfig) : AuthConfig :=
  spread defaultAuthConfig customConfig.

(** ** The provider's state, the store and the network *)

(** The five [useState] cells of [AuthProvider]. *)
Record AuthState : Type := mkAuthState {
  token : option string;
  refreshToken : option string;
  user : option User;
  loading : bool;
  isAuthenticated : bool
}.

(** The session invariant: an authenticated state holds a credential. *)
Definition consistent (s : AuthState) : Prop :=
  isAuthenticated s = true -> token s <> None.

(** The initial values given to [useState]. *)
Definition initialState : AuthState :=
  {| token := None; refreshToken := None; user := None;
     loading := true; isAuthenticated := false |}.

(** A request handed to [fetch]. *)
Record Request : Type := mkRequest {
  url : string;
  method : string;
  headers : gmap string string
}.

(** What awaiting [response.json()] gives. *)
Inductive JsonBody (T : Type) : Type :=
| JsonThrows (err : string)
    (* the body is not JSON text: the promise rejects *)
| JsonNull
    (* the body is the JSON text [null] *)
| JsonValue (value : T) (message : option string).
    (* any other body, read at type [T] as the code does, together with
       its [message] property when it has one *)
Arguments JsonThrows {T} _.
Arguments JsonNull {T}.
Arguments JsonValue {T} _ _.

(** What awaiting [fetch(...)] gives. *)
Inductive FetchOutcome (T : Type) : Type :=
| FetchThrows (err : string)
    (* network unreachable, timeout, aborted: the promise rejects *)
| FetchResponse (httpStatus : Z) (contentType : option string) (body : JsonBody T).
Arguments FetchThrows {T} _.
Arguments FetchResponse {T} _ _ _.

(** The remote side: its answer to the [n]-th request of the session. *)
Definition Server (T : Type) : Type := nat -> Request -> FetchOutcome T.

(** The payload of the refresh endpoint. *)
Record RefreshData : Type := mkRefreshData {
  r_token : string;
  r_refreshToken : option string;
  r_user : option User
}.

Record Backend : Type := mkBackend {
  verifyServer : Server User;
  refreshServer : Server RefreshData
}.

Record World : Type := mkWorld {
  auth : AuthState;
  localStorage : gmap string string;
  requests : list Request
}.

(** ** A state monad over the world *)

Definition M (A : Type) : Type := World -> A * World.

Definition ret {A : Type} (a : A) : M A := fun w => (a, w).

Definition bind {A B : Type} (m : M A) (k : A -> M B) : M B :=
  fun w => let '(a, w') := m w in k a w'.

Declare Scope session_scope.
Delimit Scope session_scope with session.
Notation "'let*' x ':=' m 'in' k" := (bind m (fun x => k))
  (at level 10, x name, m at level 100, k at level 200) : session_scope.
Notation "m ';;' k" := (bind m (fun _ => k))
  (at level 100, k at level 200, right associativity) : session_scope.
Local Open Scope session_scope.

Definition exec {A : Type} (m : M A) (w : World) : World := snd (m w).
Definition result {A : Type} (m : M A) (w : World) : A := fst (m w).

(** The state setters returned by [useState]. *)
Definition modify_auth (f : AuthState -> AuthState) : M unit :=
  fun w => (tt, {| auth := f (auth w);
                   localStorage := localStorage w;
                   requests := requests w |}).

Definition setToken (v : option string) : M unit :=
  modify_auth (fun s => {| token := v; refreshToken := refreshToken s;
                           user := user s; loading := loading s;
                           isAuthenticated := isAuthenticated s |}).

Definition setRefreshToken (v : option string) : M unit :=
  modify_auth (fun s => {| token := token s; refreshToken := v;
                           user := user s; loading := loading s;
                           isAuthenticated := isAuthenticated s |}).

Definition setUser (v : option User) : M unit :=
  modify_auth (fun s => {| token := token s; refreshToken := refreshToken s;
                           user := v; loading := loading s;
                           isAuthenticated := isAuthenticated s |}).

Definition setLoading (v : bool) : M unit :=
  modify_auth (fun s => {| token := token s; refreshToken := refreshToken s;
                           user := user s; loading := v;
                           isAuthenticated := isAuthenticated s |}).

Definition setIsAuthenticated (v : bool) : M unit :=
  modify_auth (fun s => {| token := token s; refreshToken := refreshToken s;
                           user := user s; loading := loading s;
                           isAuthenticated := v |}).

(** The storage API. *)
Definition modify_storage (f : gmap string string -> gmap string string) : M unit :=
  fun w => (tt, {| auth := auth w;
                   localStorage := f (localStorage w);
                   requests := requests w |}).

Definition getItem (k : string) : M (option string) :=
  fun w => (localStorage w !! k, w).

Definition setItem (k v : string) : M unit := modify_storage (insert k v).

Definition removeItem (k : string) : M unit := modify_storage (delete k).

(** Unfolding of the monadic plumbing. *)
Ltac run :=
  unfold exec, result, bind, ret, getItem, setItem, removeItem,
    setToken, setRefreshToken, setUser, setLoading, setIsAuthenticated,
    modify_auth, modify_storage; simpl.

Section Session.

(** [Config.Urls.API]: the base address taken from the build environment. *)
Variable API : string.

(** The host's [JSON.stringify] and [JSON.parse] on principals; [None]
    stands for the [SyntaxError] that [JSON.parse] throws. *)
Variable JSON_stringify : User -> string.
Variable JSON_parse : string -> option User.

(** *** [core/api/fetch.ts] *)

(** [withAuth(token, headers)] = [{ Authorization: `Bearer ${token}`, ...headers }] *)
Definition withAuth (tok : string) (hdrs : gmap string string)
    : gmap string string :=
  hdrs ∪ {[ "Authorization" := "Bearer " +:+ tok ]}.

(** The request that [getFetch(route, headers)] hands to [fetch]. *)
Definition getRequest (route : string) (hdrs : gmap string string) : Request :=
  {| url := API +:+ route;
     method := "GET";
     headers := hdrs ∪ {[ "Content-Type" := "application/json" ]} |}.

(** The world once a request has left. *)
Definition sent (req : Request) (w : World) : World :=
  {| auth := auth w;
     localStorage := localStorage w;
     requests := requests w ++ [req] |}.

(** [await fetch(...)]: the request leaves, the remote side answers.  The
    code sets no timeout: until the answer comes the caller stays suspended
    at the [await], so an operation that sends a request describes the
    world once that request has been answered. *)
Definition fetch {T : Type} (server : Server T) (req : Request)
    : M (FetchOutcome T) :=
  fun w => (server (length (requests w)) req, sent req w).

(** The object built in the [catch] clause of [getFetch]. *)
Definition caught {T : Type} (err : string) : ApiResponse T :=
  {| status := 500%Z; data := None; error := Some err; success := false |}.

(** The [TypeError] raised by reading [.message] of [null]. *)
Definition null_message_error : string :=
  "Cannot read properties of null (reading 'message')".

(** The part of [getFetch] that follows [await fetch(...)]. *)
Definition interpret {T : Type} (o : FetchOutcome T) : ApiResponse T :=
  match o with
  | FetchThrows err => caught err
  | FetchResponse st ct body =>
      let contentType := default "" (truthy ct) in
      let isSuccess := ((200 <=? st)%Z && (st <? 300)%Z)%bool in
      if includes contentType "application/json" then
        match body with
        | JsonThrows err => caught err
        | JsonNull =>
            if isSuccess
            then {| status := st; data := None; error := None; success := true |}
            else caught null_message_error
        | JsonValue responseData message =>
            {| status := st;
               data := if isSuccess then Some responseData else None;
               error := if isSuccess then None
                        else Some (default ("HTTP " +:+ pretty st) (truthy message));
               success := isSuccess |}
        end
      else
        {| status := st; data := None;
           error := Some "Received non-JSON response from server";
           success := false |}
  end.

Definition getFetch {T : Type} (server : Server T) (route : string)
    (hdrs : gmap string string) : M (ApiResponse T) :=
  let* o := fetch server (getRequest route hdrs) in
  ret (interpret o).

(** [response.success && response.data], as the payload when it holds. *)
Definition accepted {T : Type} (response : ApiResponse T) : option T :=
  if success response then data response else None.

(** *** The three kinds of answers

    An answer of the remote side is an acceptance (status 2xx, JSON
    content type, a payload), a failure (the promise of [fetch] or of
    [json()] rejects, or reading the error message throws: the cases that
    end in the [catch] clause of [getFetch]), or a rejection (any other
    answer: a status outside 2xx, a body that is not announced as JSON,
    or the JSON text [null]). *)

Definition isSuccessStatus (st : Z) : bool := ((200 <=? st)%Z && (st <? 300)%Z)%bool.

Definition isJson (ct : option string) : bool :=
  includes (default "" (truthy ct)) "application/json".

Definition acceptance {T : Type} (o : FetchOutcome T) : option T :=
  match o with
  | FetchResponse st ct (JsonValue v _) =>
      if (isJson ct && isSuccessStatus st)%bool then Some v else None
  | _ => None
  end.

Definition failure {T : Type} (o : FetchOutcome T) : bool :=
  match o with
  | FetchThrows _ => true
  | FetchResponse st ct (JsonThrows _) => isJson ct
  | FetchResponse st ct JsonNull => (isJson ct && negb (isSuccessStatus st))%bool
  | FetchResponse st ct (JsonValue _ _) => false
  end.

Definition rejection {T : Type} (o : FetchOutcome T) : bool :=
  match acceptance o with
  | Some _ => false
  | None => negb (failure o)
  end.

(** *** [core/auth/AuthContext.tsx]: the operations *)

Variable config : AuthConfig.
Variable backend : Backend.

(** The two requests that the session issues. *)
Definition verifyRequest (currentToken : string) : Request :=
  getRequest (verify (endpoints config)) (withAuth currentToken ∅).

Definition refreshRequest (route rt : string) : Request :=
  getRequest route (withAuth rt ∅).

Definition login (newToken : string) (newRefreshToken : option string)
    (newUser : option User) : M unit :=
  setToken (Some newToken) ;;
  setIsAuthenticated true ;;
  setItem (tokenKey (storage config)) newToken ;;
  match truthy newRefreshToken with
  | Some r =>
      setRefreshToken (Some r) ;;
      setItem (key_coerce (refreshTokenKey (storage config))) r
  | None => ret tt
  end ;;
  match newUser with
  | Some u =>
      setUser (Some u) ;;
      setItem (key_coerce (userKey (storage config))) (JSON_stringify u)
  | None => ret tt
  end.

Definition logout : M unit :=
  setToken None ;;
  setRefreshToken None ;;
  setUser None ;;
  setIsAuthenticated false ;;
  removeItem (tokenKey (storage config)) ;;
  match truthy (refreshTokenKey (storage config)) with
  | Some k => removeItem k
  | None => ret tt
  end ;;
  match truthy (userKey (storage config)) with
  | Some k => removeItem k
  | None => ret tt
  end.

(** The keys that [logout] removes. *)
Definition cleared (k : string) : Prop :=
  k = tokenKey (storage config)
  \/ truthy (refreshTokenKey (storage config)) = Some k
  \/ truthy (userKey (storage config)) = Some k.

#[global] Instance cleared_dec (k : string) : Decision (cleared k).
Proof. unfold cleared. apply _. Defined.

Definition updateUser (updatedUser : User) : M unit :=
  setUser (Some updatedUser) ;;
  match truthy (userKey (storage config)) with
  | Some k => setItem k (JSON_stringify updatedUser)
  | None => ret tt
  end.

(** [verifyToken] and [refreshAccessToken] are closures created by one
    render of the provider.  The [token] and [refreshToken] they read are
    the constants bound by [useState] in that render ([view]): a call of
    [setToken] or [setRefreshToken] shows only in the closures of a later
    render.  The setters and the storage API act on the current world.

    [getFetch] catches every rejection itself, and the model has no
    storage quota, so the [catch] clauses of the two functions are never
    entered and are left out. *)
Definition refreshAccessToken (view : AuthState) : M bool :=
  match truthy (refreshToken view), truthy (refresh (endpoints config)) with
  | Some rt, Some route =>
      let* response := getFetch (refreshServer backend) route (withAuth rt ∅) in
      match accepted response with
      | Some d =>
          setToken (Some (r_token d)) ;;
          setItem (tokenKey (storage config)) (r_token d) ;;
          match truthy (r_refreshToken d) with
          | Some r =>
              setRefreshToken (Some r) ;;
              setItem (key_coerce (refreshTokenKey (storage config))) r
          | None => ret tt
          end ;;
          match r_user d with
          | Some u =>
              setUser (Some u) ;;
              setItem (key_coerce (userKey (storage config))) (JSON_stringify u)
          | None => ret tt
          end ;;
          setIsAuthenticated true ;;
          ret true
      | None =>
          logout ;;
          ret false
      end
  | _, _ => ret false
  end.

Definition verifyToken (view : AuthState) (tokenToVerify : option string)
    : M bool :=
  match truthy (or_else tokenToVerify (token view)) with
  | None =>
      setLoading false ;;
      ret false
  | Some currentToken =>
      let* response :=
        getFetch (verifyServer backend) (verify (endpoints config))
                 (withAuth currentToken ∅) in
      match accepted response with
      | Some u =>
          setIsAuthenticated true ;;
          setUser (Some u) ;;
          setLoading false ;;
          match truthy (userKey (storage config)) with
          | Some k => setItem k (JSON_stringify u)
          | None => ret tt
          end ;;
          ret true
      | None =>
          let* refreshSuccess :=
            match truthy (refreshToken view), truthy (refresh (endpoints config)) with
            | Some _, Some _ => refreshAccessToken view
            | _, _ => ret false
            end in
          if refreshSuccess then ret true
          else
            setIsAuthenticated false ;;
            setLoading false ;;
            logout ;;
            ret false
      end
  end.

(** The answer to a request sent from world [w]. *)
Definition verifyAnswer (c : string) (w : World) : FetchOutcome User :=
  verifyServer backend (length (requests w)) (verifyRequest c).

Definition refreshAnswer (route rt : string) (w : World) : FetchOutcome RefreshData :=
  refreshServer backend (length (requests w)) (refreshRequest route rt).

(** What [verifyToken] does once verification and recovery have failed. *)
Definition giveUp : M unit :=
  setIsAuthenticated false ;; setLoading false ;; logout.

(** The mount effect of [AuthProvider].  Its dependency list is empty: it
    runs once, after the first render, and the [verifyToken] it calls is
    the closure of that render.  The view of that closure is
    [initialState], whatever the effect has just handed to the setters. *)
Definition mountEffect : M unit :=
  let* savedToken := getItem (tokenKey (storage config)) in
  let* savedRefreshToken :=
    getItem (default "" (truthy (refreshTokenKey (storage config)))) in
  let* savedUser := getItem (default "" (truthy (userKey (storage config)))) in
  match truthy savedToken with
  | Some t =>
      setToken (Some t) ;;
      match truthy savedRefreshToken with
      | Some r => setRefreshToken (Some r)
      | None => ret tt
      end ;;
      match truthy savedUser with
      | Some s =>
          match JSON_parse s with
          | Some u => setUser (Some u)
          | None => ret tt
          end
      | None => ret tt
      end ;;
      if autoVerify config
      then (let* _ := verifyToken initialState (Some t) in ret tt)
      else (setIsAuthenticated true ;; setLoading false)
  | None => setLoading false
  end.

(** The state that the effect has restored from the store when it finds
    the credential [t] there. *)
Definition restored (t : string) (w : World) : AuthState :=
  {| token := Some t;
     refreshToken :=
       truthy (localStorage w !! default "" (truthy (refreshTokenKey (storage config))));
     user :=
       match truthy (localStorage w !! default "" (truthy (userKey (storage config)))) with
       | Some s => JSON_parse s
       | None => None
       end;
     loading := true;
     isAuthenticated := false |}.


(** A (re)load of the page: the provider is mounted afresh over what the
    store holds, and its effect runs. *)
Definition mount (w : World) : World :=
  {| auth := initialState;
     localStorage := localStorage w;
     requests := requests w |}.

Definition initialize (w : World) : World := exec mountEffect (mount w).

End Session.

(** ** [core/config/protectedRoute.tsx] *)

(** What the guard returns to the router. *)
Inductive Element : Type :=
| Spinner                                   (* the pending indicator *)
| Navigate (to : string) (replace : bool)   (* [<Navigate to=... replace />] *)
| Outlet.                                   (* the protected subtree *)

(** The body of [ProtectedRoute] after its hooks: the element chosen from
    the context snapshot and the guard's own [isChecking] cell. *)
Definition ProtectedRoute (snapshot : AuthState) (isChecking : bool) : Element :=
  if loading snapshot || isChecking then Spinner
  else
    match truthy (token snapshot) with
    | None => Navigate "/" true
    | Some _ => if isAuthenticated snapshot then Outlet else Navigate "/" true
    end.

Section Guard.

Variable API : string.
Variable JSON_stringify : User -> string.
Variable config : AuthConfig.
Variable backend : Backend.

(** The guard's effect: once the provider has stopped loading it
    verifies the credential of the snapshot, if any, and lowers
    [isChecking].  The result is the new value of [isChecking]. *)
Definition checkAuth (snapshot : AuthState) : M bool :=
  match truthy (token snapshot) with
  | Some t =>
      let* _ := verifyToken API JSON_stringify config backend snapshot (Some t) in
      ret false
  | None => ret false
  end.

Definition guardEffect (snapshot : AuthState) (isChecking : bool) : M bool :=
  if loading snapshot then ret isChecking else checkAuth snapshot.

End Guard.

(** ** [core/api/fetch.ts]: the helpers that send a body, and [deleteFetch] *)

(** The [data] argument of [postFetch], [putFetch] and [patchFetch]: a
    [FormData] object, or any other value. *)
Inductive Payload (D : Type) : Type :=
| FormData (fields : list (string * string))
| Plain (d : D).
Arguments FormData {D} _.
Arguments Plain {D} _.

(** What [JSON.stringify] gives: JSON text, [undefined] (for [undefined],
    a function or a symbol), or a thrown [TypeError] (a cycle, a BigInt). *)
Inductive Stringified : Type :=
| JsonText (s : string)
| JsonUndefined
| JsonThrown (err : string).

(** The [body] option handed to [fetch]. *)
Inductive Body : Type :=
| FormBody (fields : list (string * string))
| TextBody (s : string).

(** The remote side for requests that may carry a body. *)
Definition BodyServer (T : Type) : Type :=
  nat -> Request -> option Body -> FetchOutcome T.

Section Mutations.

Variable API : string.
Context {D : Type}.
Variable stringify : D -> Stringified.

(** [data instanceof FormData] *)
Definition isFormData (data : Payload D) : bool :=
  match data with
  | FormData _ => true
  | Plain _ => false
  end.

(** [{ ...(!isFormData && { "Content-Type": "application/json" }), ...headers }] *)
Definition bodyHeaders (data : Payload D) (hdrs : gmap string string)
    : gmap string string :=
  hdrs ∪ (if isFormData data then ∅ else {[ "Content-Type" := "application/json" ]}).

Definition bodyRequest (verb route : string) (data : Payload D)
    (hdrs : gmap string string) : Request :=
  {| url := API +:+ route; method := verb; headers := bodyHeaders data hdrs |}.

(** [isFormData ? data : JSON.stringify(data)], evaluated while the
    options of [fetch] are built; [inl] is the thrown error. *)
Definition serialize (data : Payload D) : string + option Body :=
  match data with
  | FormData fields => inr (Some (FormBody fields))
  | Plain d =>
      match stringify d with
      | JsonText s => inr (Some (TextBody s))
      | JsonUndefined => inr None
      | JsonThrown err => inl err
      end
  end.

Definition fetchBody {T : Type} (server : BodyServer T) (req : Request)
    (body : option Body) : M (FetchOutcome T) :=
  fun w => (server (length (requests w)) req body, sent req w).

(** The common text of [postFetch], [putFetch] and [patchFetch], which
    differ in the method only. *)
Definition bodyFetch {T : Type} (verb : string) (server : BodyServer T)
    (route : string) (data : Payload D) (hdrs : gmap string string)
    : M (ApiResponse T) :=
  match serialize data with
  | inl err => ret (caught err)
  | inr body =>
      let* o := fetchBody server (bodyRequest verb route data hdrs) body in
      ret (interpret o)
  end.

Definition postFetch {T : Type} := @bodyFetch T "POST".
Definition putFetch {T : Type} := @bodyFetch T "PUT".
Definition patchFetch {T : Type} := @bodyFetch T "PATCH".

Definition deleteRequest (route : string) (hdrs : gmap string string) : Request :=
  {| url := API +:+ route;
     method := "DELETE";
     headers := hdrs ∪ {[ "Content-Type" := "application/json" ]} |}.

Definition deleteFetch {T : Type} (server : Server T) (route : string)
    (hdrs : gmap string string) : M (ApiResponse T) :=
  let* o := fetch server (deleteRequest route hdrs) in
  ret (interpret o).

End Mutations.

(** ** Vocabulary of the further properties *)

(** A response is well formed when it reports an error exactly when it
    does not report success, carries data only on success, and reports
    success only with a status in the 2xx range. *)
Definition wellFormed {T : Type} (r : ApiResponse T) : Prop :=
  (success r = true <-> error r = None)
  /\ (data r <> None -> success r = true)
  /\ (success r = true -> (200 <= status r < 300)%Z).

(** The session state and the store are the same in two worlds. *)
Definition sameSession (w w' : World) : Prop :=
  auth w = auth w' /\ localStorage w = localStorage w'.

(** The requests issued between two worlds. *)
Definition issued (w w' : World) (l : list Request) : Prop :=
  requests w' = (requests w ++ l)%list.

(** ** Sample data *)

Module Sample.

Definition API : string := "http://localhost:5000".

Definition alice : User :=
  {| id := "1"; email := "a@b.com"; name := None; attributes := [] |}.

(** A stand-in for the host's JSON functions, exact on [alice]. *)
Definition stringify (u : User) : string := "{id:" +:+ id u +:+ "}".
Definition parse (s : string) : option User :=
  if decide (s = stringify alice) then Some alice else None.

Definition empty : World :=
  {| auth := initialState; localStorage := ∅; requests := [] |}.

Definition json : option string := Some "application/json; charset=utf-8".

(** Status 200 with the principal. *)
Definition accepting : Server User :=
  fun _ _ => FetchResponse 200 json (JsonValue alice None).

(** Status 401 with an error body. *)
Definition rejecting {T : Type} (dummy : T) : Server T :=
  fun _ _ => FetchResponse 401 json (JsonValue dummy (Some "Unauthorized")).

(** No connection. *)
Definition unreachable {T : Type} : Server T :=
  fun _ _ => FetchThrows "Failed to fetch".

Definition fresh : RefreshData :=
  {| r_token := "new"; r_refreshToken := None; r_user := None |}.

Definition renewing : Server RefreshData :=
  fun _ _ => FetchResponse 200 json (JsonValue fresh None).

(** A store left by an earlier session. *)
Definition seeded : World :=
  {| auth := initialState;
     localStorage := {[ "authToken" := "abc"; "refreshToken" := "r" ]};
     requests := [] |}.

(** The defaults with [autoVerify] switched off. *)
Definition unverified : AuthConfig :=
  effectiveConfig (Some {| p_endpoints := None; p_storage := None;
                           p_autoVerify := Some false |}).

(** A remote side that rejects every credential but would renew. *)
Definition strict : Backend :=
  {| verifyServer := rejecting alice; refreshServer := renewing |}.

(** A remote side that accepts every credential. *)
Definition lenient : Backend :=
  {| verifyServer := accepting; refreshServer := renewing |}.

(** The world after a login with a credential only, and after a login with
    a credential and a renewal credential. *)
Definition plainSession : World :=
  exec (login stringify defaultAuthConfig "abc" None None) empty.

Definition session : World :=
  exec (login stringify defaultAuthConfig "abc" (Some "r") None) empty.

End Sample.

(** ** More sample data *)

Module Demo.

(** A value that [JSON.stringify] refuses, and one it accepts. *)
Inductive Value : Type := Cyclic | Record_ (text : string).

Definition stringify (v : Value) : Stringified :=
  match v with
  | Cyclic => JsonThrown "Converting circular structure to JSON"
  | Record_ text => JsonText text
  end.

Definition silent : BodyServer User := fun _ _ _ => FetchThrows "Failed to fetch".

(** A configuration whose storage record names the token key only. *)
Definition tokenOnly : AuthConfig :=
  effectiveConfig
    (Some {| p_endpoints := None;
             p_storage := Some {| tokenKey := "tok"; refreshTokenKey := None;
                                  userKey := Some "user" |};
             p_autoVerify := None |}).

(** A store whose principal is not JSON text, and one whose credential is
    the empty string. *)
Definition corrupt : World :=
  {| auth := initialState;
     localStorage := {[ "authToken" := "abc"; "user" := "{oops" ]};
     requests := [] |}.

Definition blank : World :=
  {| auth := initialState;
     localStorage := {[ "authToken" := ""; "refreshToken" := "r" ]};
     requests := [] |}.

(** The storage record of the documentation's example: no renewal key. *)
Definition readme : AuthConfig :=
  effectiveConfig
    (Some {| p_endpoints := Some {| verify := "/api/auth/me";
                                    refresh := Some "/api/auth/refresh" |};
             p_storage := Some {| tokenKey := "access_token";
                                  refreshTokenKey := None;
                                  userKey := Some "current_user" |};
             p_autoVerify := Some false |}).

(** The world in which the mount effect calls [verifyToken] over the
    seeded store: credential and renewal credential are restored. *)
Definition startup : World :=
  {| auth := restored Sample.parse defaultAuthConfig "abc" Sample.seeded;
     localStorage := localStorage Sample.seeded;
     requests := requests Sample.seeded |}.

(** A remote side that cannot be reached for verification but would renew. *)
Definition offline : Backend :=
  {| verifyServer := Sample.unreachable; refreshServer := Sample.renewing |}.

End Demo.

(** * Properties *)

(** ** Truthiness *)

Lemma truthy_Some (x : option string) (s : string) :
  truthy x = Some s -> x = Some s /\ s <> "".
Proof.
  destruct x as [t|]; simpl; [|discriminate].
  destruct (decide (t = "")); [discriminate|].
  intros [= ->]. auto.
Qed.

Lemma truthy_nonempty (s : string) : s <> "" -> truthy (Some s) = Some s.
Proof. intros H. simpl. destruct (decide (s = "")); congruence. Qed.

Lemma or_else_truthy (x y : option string) (s : string) :
  truthy x = Some s -> or_else x y = Some s.
Proof. unfold or_else. intros ->. reflexivity. Qed.

Lemma truthy_or_else_l (x y : option string) (s : string) :
  truthy x = Some s -> truthy (or_else x y) = Some s.
Proof.
  intros H. rewrite (or_else_truthy x y s H).
  destruct (truthy_Some x s H) as [_ Hne]. by apply truthy_nonempty.
Qed.

(** ** Running computations *)

Lemma exec_bind {A B : Type} (m : M A) (k : A -> M B) (w : World) :
  exec (bind m k) w = exec (k (result m w)) (exec m w).
Proof. unfold exec, result, bind. by destruct (m w). Qed.

Lemma result_bind {A B : Type} (m : M A) (k : A -> M B) (w : World) :
  result (bind m k) w = result (k (result m w)) (exec m w).
Proof. unfold exec, result, bind. by destruct (m w). Qed.

Lemma run_eq {A : Type} (m : M A) (w : World) (a : A) (w' : World) :
  m w = (a, w') -> result m w = a /\ exec m w = w'.
Proof. unfold exec, result. by intros ->. Qed.

(** ** The configuration *)

(** C9, refuted as stated: a custom configuration that gives only
    [endpoints.verify] (the example of the provider's documentation) ends
    with no refresh endpoint at all, not with the default one. *)
Lemma custom_endpoints_lose_default_refresh :
  refresh (endpoints (effectiveConfig
    (Some {| p_endpoints := Some {| verify := "/api/auth/me"; refresh := None |};
             p_storage := None;
             p_autoVerify := Some false |})))
  <> refresh (endpoints defaultAuthConfig).
Proof. simpl. discriminate. Qed.

(** C9, amended: the effective configuration is the custom one merged over
    the defaults one top-level option at a time.  An option among
    [endpoints], [storage] and [autoVerify] that the custom configuration
    does not give takes its default; one that it gives is taken whole, so
    that the nested options of a given [endpoints] or [storage] record are
    exactly those of the custom record, absent when it omits them. *)
Theorem effectiveConfig_merges_top_level (custom : option PartialAuthConfig) :
  endpoints (effectiveConfig custom)
    = default (endpoints defaultAuthConfig) (given custom p_endpoints)
  /\ storage (effectiveConfig custom)
    = default (storage defaultAuthConfig) (given custom p_storage)
  /\ autoVerify (effectiveConfig custom)
    = default true (given custom p_autoVerify)
  /\ (forall e, given custom p_endpoints = Some e ->
        verify (endpoints (effectiveConfig custom)) = verify e
        /\ refresh (endpoints (effectiveConfig custom)) = refresh e)
  /\ (forall s, given custom p_storage = Some s ->
        tokenKey (storage (effectiveConfig custom)) = tokenKey s
        /\ refreshTokenKey (storage (effectiveConfig custom)) = refreshTokenKey s
        /\ userKey (storage (effectiveConfig custom)) = userKey s)
  /\ (given custom p_endpoints = None ->
        verify (endpoints (effectiveConfig custom)) = "/auth/me"
        /\ refresh (endpoints (effectiveConfig custom)) = Some "/auth/refresh")
  /\ (given custom p_storage = None ->
        tokenKey (storage (effectiveConfig custom)) = "authToken"
        /\ refreshTokenKey (storage (effectiveConfig custom)) = Some "refreshToken"
        /\ userKey (storage (effectiveConfig custom)) = Some "user").
Proof.
  destruct custom as [[[e|] [s|] [a|]]|]; simpl;
    repeat split; intros; simplify_eq; reflexivity.
Qed.

(** ** The guard *)

(** C10: the element returned by the guard is a function of [loading], the
    guard's [isChecking], the credential and [isAuthenticated].  While one
    of the two flags is up it is the pending indicator; once both are down
    it is a history-replacing redirect to ["/"] exactly when the credential
    is absent or [isAuthenticated] is false, and the protected subtree
    otherwise. *)
Theorem ProtectedRoute_decision (snapshot : AuthState) (isChecking : bool) :
  (loading snapshot = true \/ isChecking = true <->
     ProtectedRoute snapshot isChecking = Spinner)
  /\ (loading snapshot = false /\ isChecking = false /\
      (truthy (token snapshot) = None \/ isAuthenticated snapshot = false) <->
     ProtectedRoute snapshot isChecking = Navigate "/" true)
  /\ (loading snapshot = false /\ isChecking = false /\
      truthy (token snapshot) <> None /\ isAuthenticated snapshot = true <->
     ProtectedRoute snapshot isChecking = Outlet)
  /\ (forall s' c',
        loading s' = loading snapshot -> truthy (token s') = truthy (token snapshot) ->
        isAuthenticated s' = isAuthenticated snapshot -> c' = isChecking ->
        ProtectedRoute s' c' = ProtectedRoute snapshot isChecking).
Proof.
  unfold ProtectedRoute.
  destruct snapshot as [tk rt u l a]; simpl.
  split; [|split; [|split]].
  - destruct l, isChecking, (truthy tk), a; simpl; intuition congruence.
  - destruct l, isChecking, (truthy tk), a; simpl; intuition congruence.
  - destruct l, isChecking, (truthy tk), a; simpl; intuition congruence.
  - intros s' c' -> -> -> ->. reflexivity.
Qed.

(** ** The session *)

Section LogoutProperties.

Variable config : AuthConfig.

Lemma logout_auth (w : World) :
  auth (exec (logout config) w)
  = {| token := None; refreshToken := None; user := None;
       loading := loading (auth w); isAuthenticated := false |}.
Proof.
  unfold logout.
  destruct (truthy (refreshTokenKey (storage config)));
    destruct (truthy (userKey (storage config))); reflexivity.
Qed.

Lemma logout_requests (w : World) :
  requests (exec (logout config) w) = requests w.
Proof.
  unfold logout.
  destruct (truthy (refreshTokenKey (storage config)));
    destruct (truthy (userKey (storage config))); reflexivity.
Qed.

Lemma logout_removes (w : World) (k : string) :
  cleared config k -> localStorage (exec (logout config) w) !! k = None.
Proof.
  unfold cleared, logout. intros H.
  destruct (truthy (refreshTokenKey (storage config))) as [rk|];
    destruct (truthy (userKey (storage config))) as [uk|]; run;
    rewrite ?lookup_delete; repeat case_decide; try reflexivity;
    destruct H as [H | [H | H]]; congruence.
Qed.

Lemma logout_keeps (w : World) (k : string) :
  ~ cleared config k -> localStorage (exec (logout config) w) !! k = localStorage w !! k.
Proof.
  unfold cleared, logout. intros H.
  destruct (truthy (refreshTokenKey (storage config))) as [rk|];
    destruct (truthy (userKey (storage config))) as [uk|]; run;
    rewrite ?lookup_delete; repeat case_decide; try reflexivity;
    exfalso; apply H; subst; auto.
Qed.

Lemma world_eq (w w' : World) :
  auth w = auth w' -> localStorage w = localStorage w' ->
  requests w = requests w' -> w = w'.
Proof. destruct w, w'; simpl; congruence. Qed.

Lemma logout_idempotent (w : World) :
  exec (logout config) (exec (logout config) w) = exec (logout config) w.
Proof.
  apply world_eq.
  - rewrite !logout_auth. reflexivity.
  - apply map_eq. intros k.
    destruct (decide (cleared config k)) as [H | H].
    + by rewrite !logout_removes.
    + by rewrite logout_keeps.
  - by rewrite !logout_requests.
Qed.

End LogoutProperties.

(** C8: from every state, [logout] leaves [isAuthenticated] false and the
    credential (with the renewal credential and the principal) null, and
    removes from the store the token key and each of the two other keys
    that is configured with a non-empty name, touching no other key and
    issuing no request; running it a second time changes nothing. *)
Theorem logout_clears_and_is_idempotent (config : AuthConfig) (w : World) :
  isAuthenticated (auth (exec (logout config) w)) = false
  /\ token (auth (exec (logout config) w)) = None
  /\ refreshToken (auth (exec (logout config) w)) = None
  /\ user (auth (exec (logout config) w)) = None
  /\ localStorage (exec (logout config) w) !! tokenKey (storage config) = None
  /\ (forall k, truthy (refreshTokenKey (storage config)) = Some k ->
        localStorage (exec (logout config) w) !! k = None)
  /\ (forall k, truthy (userKey (storage config)) = Some k ->
        localStorage (exec (logout config) w) !! k = None)
  /\ (forall k, ~ cleared config k ->
        localStorage (exec (logout config) w) !! k = localStorage w !! k)
  /\ requests (exec (logout config) w) = requests w
  /\ exec (logout config) (exec (logout config) w) = exec (logout config) w.
Proof.
  rewrite logout_auth; simpl.
  repeat split.
  - apply logout_removes. left. reflexivity.
  - intros k H. apply logout_removes. right. left. exact H.
  - intros k H. apply logout_removes. right. right. exact H.
  - intros k H. by apply logout_keeps.
  - apply logout_requests.
  - apply logout_idempotent.
Qed.

Section LoginProperties.

Variable JSON_stringify : User -> string.
Variable config : AuthConfig.

Lemma login_auth (t : string) (r : option string) (u : option User) (w : World) :
  auth (exec (login JSON_stringify config t r u) w)
  = {| token := Some t;
       refreshToken := match truthy r with
                       | Some r' => Some r'
                       | None => refreshToken (auth w)
                       end;
       user := match u with Some u' => Some u' | None => user (auth w) end;
       loading := loading (auth w);
       isAuthenticated := true |}.
Proof. unfold login. destruct (truthy r), u; reflexivity. Qed.

Lemma login_requests (t : string) (r : option string) (u : option User) (w : World) :
  requests (exec (login JSON_stringify config t r u) w) = requests w.
Proof. unfold login. destruct (truthy r), u; reflexivity. Qed.

Lemma login_storage (t : string) (r : option string) (u : option User) (w : World) :
  localStorage (exec (login JSON_stringify config t r u) w)
  = let s1 := <[tokenKey (storage config) := t]> (localStorage w) in
    let s2 := match truthy r with
              | Some r' => <[key_coerce (refreshTokenKey (storage config)) := r']> s1
              | None => s1
              end in
    match u with
    | Some u' => <[key_coerce (userKey (storage config)) := JSON_stringify u']> s2
    | None => s2
    end.
Proof. unfold login. destruct (truthy r), u; reflexivity. Qed.

End LoginProperties.

(** C7, refuted as stated: a login that supplies neither a renewal
    credential nor a principal, made over the store of an earlier complete
    login, leaves the store holding both under their keys. *)
Lemma login_keeps_entries_of_earlier_session :
  localStorage
    (exec (login Sample.stringify defaultAuthConfig "b" None None)
       (exec (login Sample.stringify defaultAuthConfig "a" (Some "r1") (Some Sample.alice))
          Sample.empty))
  !! "refreshToken" = Some "r1"
  /\ localStorage
    (exec (login Sample.stringify defaultAuthConfig "b" None None)
       (exec (login Sample.stringify defaultAuthConfig "a" (Some "r1") (Some Sample.alice))
          Sample.empty))
  !! "user" = Some (Sample.stringify Sample.alice).
Proof. split; vm_compute; reflexivity. Qed.

(** C7, amended: for all arguments and every configuration, after
    [login] the state is authenticated with the given credential, and
    [login] has written to the store, in this order, the credential under
    the token key, the renewal credential under the renewal key if one was
    supplied (non-empty), and the serialised principal under the user key
    if one was supplied; a key that the configuration omits stands for the
    key [undefined], and where keys coincide the later write stays.  It
    writes nothing else and removes nothing: under any other key, and
    under the key of a value that was not supplied, the store keeps the
    entry it had before (none if it had none).  No request is issued. *)
Theorem login_store_effect (JSON_stringify : User -> string)
    (config : AuthConfig)
    (t : string) (r : option string) (u : option User) (w : World) :
  isAuthenticated (auth (exec (login JSON_stringify config t r u) w)) = true
  /\ token (auth (exec (login JSON_stringify config t r u) w)) = Some t
  /\ localStorage (exec (login JSON_stringify config t r u) w)
     = match u with
       | Some u' =>
           <[key_coerce (userKey (storage config)) := JSON_stringify u']>
             (match truthy r with
              | Some r' =>
                  <[key_coerce (refreshTokenKey (storage config)) := r']>
                    (<[tokenKey (storage config) := t]> (localStorage w))
              | None => <[tokenKey (storage config) := t]> (localStorage w)
              end)
       | None =>
           match truthy r with
           | Some r' =>
               <[key_coerce (refreshTokenKey (storage config)) := r']>
                 (<[tokenKey (storage config) := t]> (localStorage w))
           | None => <[tokenKey (storage config) := t]> (localStorage w)
           end
       end
  /\ (truthy r = None
        \/ key_coerce (refreshTokenKey (storage config)) <> tokenKey (storage config) ->
      u = None \/ key_coerce (userKey (storage config)) <> tokenKey (storage config) ->
      localStorage (exec (login JSON_stringify config t r u) w)
        !! tokenKey (storage config) = Some t)
  /\ (forall r', truthy r = Some r' ->
      u = None
        \/ key_coerce (userKey (storage config))
           <> key_coerce (refreshTokenKey (storage config)) ->
      localStorage (exec (login JSON_stringify config t r u) w)
        !! key_coerce (refreshTokenKey (storage config)) = Some r')
  /\ (forall u', u = Some u' ->
      localStorage (exec (login JSON_stringify config t r u) w)
        !! key_coerce (userKey (storage config)) = Some (JSON_stringify u'))
  /\ (forall k, k <> tokenKey (storage config) ->
      truthy r = None \/ k <> key_coerce (refreshTokenKey (storage config)) ->
      u = None \/ k <> key_coerce (userKey (storage config)) ->
      localStorage (exec (login JSON_stringify config t r u) w) !! k
      = localStorage w !! k)
  /\ requests (exec (login JSON_stringify config t r u) w) = requests w.
Proof.
  rewrite login_auth, login_requests, login_storage; simpl.
  split; [reflexivity|]. split; [reflexivity|].
  split; [by destruct (truthy r), u|].
  split; [|split; [|split; [|split]]].
  - destruct (truthy r), u; intros [Hr | Hr] [Hu | Hu]; try discriminate;
      rewrite ?lookup_insert_ne by congruence; apply lookup_insert_eq.
  - destruct u; intros r' -> [Hu | Hu]; try discriminate;
      rewrite ?lookup_insert_ne by congruence; apply lookup_insert_eq.
  - intros u' ->. apply lookup_insert_eq.
  - destruct (truthy r), u; intros k Hk [Hr | Hr] [Hu | Hu]; try discriminate;
      by rewrite ?lookup_insert_ne by congruence.
  - reflexivity.
Qed.

(** ** Answers of the remote side, as [getFetch] reports them *)

Section Answers.

Context {T : Type}.

Lemma accepted_interpret (o : FetchOutcome T) :
  accepted (interpret o) = acceptance o.
Proof.
  destruct o as [err | st ct body]; [reflexivity|].
  unfold acceptance, interpret, accepted, isJson, isSuccessStatus.
  destruct (includes (default "" (truthy ct)) "application/json");
    destruct body as [err | | v msg]; simpl; try reflexivity;
    destruct ((200 <=? st)%Z && (st <? 300)%Z)%bool; reflexivity.
Qed.

(** A failure is what the [catch] clause of [getFetch] reports. *)
Lemma failure_interpret (o : FetchOutcome T) :
  failure o = true -> exists err, interpret o = caught err.
Proof.
  destruct o as [err | st ct body]; simpl; [by eexists|].
  unfold isJson, isSuccessStatus.
  destruct body as [err | | v msg]; try discriminate.
  - intros ->. by eexists.
  - destruct (includes _ _); [|discriminate]. simpl.
    destruct ((200 <=? st)%Z && (st <? 300)%Z)%bool; [discriminate|].
    by eexists.
Qed.

Lemma failure_not_accepted (o : FetchOutcome T) :
  failure o = true -> acceptance o = None.
Proof.
  intros H. rewrite <- accepted_interpret.
  destruct (failure_interpret o H) as [err ->]. reflexivity.
Qed.

Lemma rejection_not_accepted (o : FetchOutcome T) :
  rejection o = true -> acceptance o = None.
Proof. unfold rejection. destruct (acceptance o); [discriminate|reflexivity]. Qed.

(** Every answer is of exactly one of the three kinds. *)
Lemma answer_kinds (o : FetchOutcome T) :
  match acceptance o with
  | Some _ => failure o = false /\ rejection o = false
  | None => failure o = negb (rejection o)
  end.
Proof.
  unfold rejection.
  destruct (acceptance o) eqn:E.
  - split; [|reflexivity].
    destruct (failure o) eqn:F; [|reflexivity].
    rewrite failure_not_accepted in E; [discriminate|exact F].
  - by rewrite negb_involutive.
Qed.

End Answers.

(** ** [refreshAccessToken] and [verifyToken], case by case *)

Section Protocol.

Variable API : string.
Variable JSON_stringify : User -> string.
Variable config : AuthConfig.
Variable backend : Backend.

Local Abbreviation refreshAccessToken' :=
  (refreshAccessToken API JSON_stringify config backend).
Local Abbreviation verifyToken' :=
  (verifyToken API JSON_stringify config backend).
Local Abbreviation verifyAnswer' := (verifyAnswer API config backend).
Local Abbreviation refreshAnswer' := (refreshAnswer API backend).
Local Abbreviation giveUp' := (giveUp config).

Lemma refresh_unavailable (view : AuthState) (w : World) :
  truthy (refreshToken view) = None \/ truthy (refresh (endpoints config)) = None ->
  refreshAccessToken' view w = (false, w).
Proof.
  unfold refreshAccessToken. intros [-> | ->]; [reflexivity|].
  by destruct (truthy (refreshToken view)).
Qed.

Lemma refresh_rejected (view : AuthState) (w : World) (rt route : string) :
  truthy (refreshToken view) = Some rt ->
  truthy (refresh (endpoints config)) = Some route ->
  acceptance (refreshAnswer' route rt w) = None ->
  refreshAccessToken' view w
  = (false, exec (logout config) (sent (refreshRequest API route rt) w)).
Proof.
  unfold refreshAccessToken, refreshAnswer, refreshRequest. intros -> -> H.
  unfold getFetch, fetch, bind at 1 2, ret at 1.
  rewrite accepted_interpret, H.
  unfold bind, ret, exec.
  by destruct (logout config _).
Qed.

(** An accepted refresh adopts the new credential set exactly as a login
    with that set would. *)
Lemma refresh_accepted (view : AuthState) (w : World) (rt route : string)
    (d : RefreshData) :
  truthy (refreshToken view) = Some rt ->
  truthy (refresh (endpoints config)) = Some route ->
  acceptance (refreshAnswer' route rt w) = Some d ->
  refreshAccessToken' view w
  = (true, exec (login JSON_stringify config (r_token d) (r_refreshToken d) (r_user d))
             (sent (refreshRequest API route rt) w)).
Proof.
  unfold refreshAccessToken, refreshAnswer, refreshRequest. intros -> -> H.
  unfold getFetch, fetch, bind at 1 2, ret at 1.
  rewrite accepted_interpret, H.
  unfold login, exec.
  destruct (truthy (r_refreshToken d)), (r_user d); reflexivity.
Qed.

Lemma verify_without_credential (view : AuthState) (arg : option string) (w : World) :
  truthy (or_else arg (token view)) = None ->
  verifyToken' view arg w = (false, exec (setLoading false) w).
Proof. unfold verifyToken. intros ->. reflexivity. Qed.

Lemma verify_accepted (view : AuthState) (arg : option string) (w : World)
    (c : string) (u : User) :
  truthy (or_else arg (token view)) = Some c ->
  acceptance (verifyAnswer' c w) = Some u ->
  verifyToken' view arg w
  = (true,
     exec (setIsAuthenticated true ;; setUser (Some u) ;; setLoading false ;;
           match truthy (userKey (storage config)) with
           | Some k => setItem k (JSON_stringify u)
           | None => ret tt
           end)
          (sent (verifyRequest API config c) w)).
Proof.
  unfold verifyToken, verifyAnswer, verifyRequest. intros -> H.
  unfold getFetch, fetch, bind at 1 2, ret at 1.
  rewrite accepted_interpret, H.
  destruct (truthy (userKey (storage config))); reflexivity.
Qed.

Lemma giveUp_run (w : World) :
  (setIsAuthenticated false ;; setLoading false ;; logout config ;; ret false) w
  = (false, exec giveUp' w).
Proof.
  unfold giveUp, exec, bind, ret, setIsAuthenticated, setLoading, modify_auth.
  cbn beta iota zeta.
  by destruct (logout config _).
Qed.

(** When verification is not accepted, the outcome is that of the refresh
    attempted from the closure's view, and of [giveUp] if that fails. *)
Lemma verify_not_accepted (view : AuthState) (arg : option string) (w : World)
    (c : string) :
  truthy (or_else arg (token view)) = Some c ->
  acceptance (verifyAnswer' c w) = None ->
  verifyToken' view arg w
  = let w1 := sent (verifyRequest API config c) w in
    let recovery := refreshAccessToken' view w1 in
    if recovery.1 then (true, recovery.2)
    else (false, exec giveUp' recovery.2).
Proof.
  unfold verifyToken, verifyAnswer, verifyRequest. intros -> H.
  unfold getFetch, fetch, bind at 1 2, ret at 1.
  rewrite accepted_interpret, H.
  cbv zeta. unfold bind at 1.
  destruct (truthy (refreshToken view)) as [rt|] eqn:Hrt;
    [destruct (truthy (refresh (endpoints config))) as [route|] eqn:Hroute|].
  - destruct (refreshAccessToken _ _ _ _ _ _) as [[] w2]; simpl; [reflexivity|].
    apply giveUp_run.
  - rewrite refresh_unavailable by auto. simpl. apply giveUp_run.
  - rewrite refresh_unavailable by auto. simpl. apply giveUp_run.
Qed.

Lemma giveUp_auth (w : World) :
  auth (exec giveUp' w)
  = {| token := None; refreshToken := None; user := None;
       loading := false; isAuthenticated := false |}.
Proof.
  unfold giveUp. rewrite !exec_bind, logout_auth. reflexivity.
Qed.

Lemma giveUp_requests (w : World) : requests (exec giveUp' w) = requests w.
Proof. unfold giveUp. rewrite !exec_bind, logout_requests. reflexivity. Qed.

Lemma giveUp_removes (w : World) (k : string) :
  cleared config k -> localStorage (exec giveUp' w) !! k = None.
Proof. unfold giveUp. rewrite !exec_bind. apply logout_removes. Qed.

End Protocol.

(** ** Verification *)


(** Recovery from a render that sees the renewal credential: when a
    credential is at hand, the closure holds a renewal credential and a
    refresh endpoint is configured, a rejected verification followed by an
    accepted refresh makes [verifyToken] return success with
    [isAuthenticated] true and the credential returned by the refresh
    endpoint in place of the earlier one.  The verify request and then the
    refresh request were issued; [loading] is as it was. *)
Theorem verifyToken_rejected_then_refreshed
    (API : string) (JSON_stringify : User -> string)
    (config : AuthConfig) (backend : Backend)
    (view : AuthState) (arg : option string) (w : World)
    (c rt route : string) (d : RefreshData) :
  truthy (or_else arg (token view)) = Some c ->
  truthy (refreshToken view) = Some rt ->
  truthy (refresh (endpoints config)) = Some route ->
  rejection (verifyAnswer API config backend c w) = true ->
  acceptance (refreshAnswer API backend route rt (sent (verifyRequest API config c) w))
    = Some d ->
  result (verifyToken API JSON_stringify config backend view arg) w = true
  /\ isAuthenticated (auth (exec (verifyToken API JSON_stringify config backend view arg) w))
     = true
  /\ token (auth (exec (verifyToken API JSON_stringify config backend view arg) w))
     = Some (r_token d)
  /\ loading (auth (exec (verifyToken API JSON_stringify config backend view arg) w))
     = loading (auth w)
  /\ requests (exec (verifyToken API JSON_stringify config backend view arg) w)
     = (requests w ++ [verifyRequest API config c; refreshRequest API route rt])%list.
Proof.
  intros Hc Hrt Hroute Hrej Hacc.
  apply rejection_not_accepted in Hrej.
  pose proof (verify_not_accepted API JSON_stringify config backend view arg w c Hc Hrej) as E.
  cbv zeta in E.
  rewrite (refresh_accepted API JSON_stringify config backend view _ rt route d
             Hrt Hroute Hacc) in E.
  simpl in E. apply run_eq in E as [-> ->].
  rewrite login_auth, login_requests. simpl.
  rewrite <- app_assoc. repeat split.
Qed.

(** From a render that sees the renewal credential, a verify call that
    fails (no answer, or an answer that cannot be parsed) has the same
    result and leaves the same world as one that is rejected: the refresh
    request is issued next, an accepted refresh gives success with the
    refreshed credential, and only a refresh that is not accepted ends in
    the full logout. *)
Theorem verifyToken_failure_as_rejection
    (API : string) (JSON_stringify : User -> string) (config : AuthConfig)
    (failing rejecting : Server User) (renewal : Server RefreshData)
    (view : AuthState) (arg : option string) (w : World) (c rt route : string) :
  truthy (or_else arg (token view)) = Some c ->
  truthy (refreshToken view) = Some rt ->
  truthy (refresh (endpoints config)) = Some route ->
  failure (failing (length (requests w)) (verifyRequest API config c)) = true ->
  rejection (rejecting (length (requests w)) (verifyRequest API config c)) = true ->
  verifyToken API JSON_stringify config (mkBackend failing renewal) view arg w
  = verifyToken API JSON_stringify config (mkBackend rejecting renewal) view arg w
  /\ requests (exec (verifyToken API JSON_stringify config
                      (mkBackend failing renewal) view arg) w)
     = (requests w ++ [verifyRequest API config c; refreshRequest API route rt])%list
  /\ match acceptance (renewal (S (length (requests w))) (refreshRequest API route rt)) with
     | Some d =>
         result (verifyToken API JSON_stringify config
                   (mkBackend failing renewal) view arg) w = true
         /\ isAuthenticated (auth (exec (verifyToken API JSON_stringify config
                   (mkBackend failing renewal) view arg) w)) = true
         /\ token (auth (exec (verifyToken API JSON_stringify config
                   (mkBackend failing renewal) view arg) w)) = Some (r_token d)
     | None =>
         result (verifyToken API JSON_stringify config
                   (mkBackend failing renewal) view arg) w = false
         /\ isAuthenticated (auth (exec (verifyToken API JSON_stringify config
                   (mkBackend failing renewal) view arg) w)) = false
         /\ token (auth (exec (verifyToken API JSON_stringify config
                   (mkBackend failing renewal) view arg) w)) = None
         /\ localStorage (exec (verifyToken API JSON_stringify config
                   (mkBackend failing renewal) view arg) w)
              !! tokenKey (storage config) = None
     end.
Proof.
  intros Hc Hrt Hroute Hfail Hrej.
  apply failure_not_accepted in Hfail.
  apply rejection_not_accepted in Hrej.
  pose proof (verify_not_accepted API JSON_stringify config
                (mkBackend failing renewal) view arg w c Hc Hfail) as E1.
  pose proof (verify_not_accepted API JSON_stringify config
                (mkBackend rejecting renewal) view arg w c Hc Hrej) as E2.
  split; [by rewrite E1, E2|].
  clear E2. cbv zeta in E1.
  assert (Hans : refreshAnswer API (mkBackend failing renewal) route rt
                   (sent (verifyRequest API config c) w)
                 = renewal (S (length (requests w))) (refreshRequest API route rt)).
  { unfold refreshAnswer. simpl. by rewrite length_app, Nat.add_1_r. }
  destruct (acceptance (renewal (S (length (requests w)))
                          (refreshRequest API route rt))) as [d|] eqn:Hd.
  - rewrite (refresh_accepted API JSON_stringify config _ view _ rt route d
               Hrt Hroute) in E1
      by (rewrite Hans; exact Hd).
    simpl in E1. apply run_eq in E1 as [-> ->].
    rewrite login_auth, login_requests. simpl.
    rewrite <- app_assoc. repeat split.
  - rewrite (refresh_rejected API JSON_stringify config _ view _ rt route
               Hrt Hroute) in E1
      by (rewrite Hans; exact Hd).
    simpl in E1. apply run_eq in E1 as [-> ->].
    rewrite giveUp_auth, giveUp_requests, logout_requests. simpl.
    rewrite <- app_assoc. repeat split.
    apply giveUp_removes. by left.
Qed.

(** ** Start-up *)

Section Startup.

Variable API : string.
Variable JSON_stringify : User -> string.
Variable JSON_parse : string -> option User.
Variable config : AuthConfig.
Variable backend : Backend.

Local Abbreviation initialize' :=
  (initialize API JSON_stringify JSON_parse config backend).
Local Abbreviation restored' := (restored JSON_parse config).

Lemma key_read (k : string) : default "" (truthy (Some k)) = k.
Proof. simpl. by destruct (decide (k = "")). Qed.

Lemma initialize_without_credential (w : World) :
  truthy (localStorage w !! tokenKey (storage config)) = None ->
  initialize' w
  = {| auth := {| token := None; refreshToken := None; user := None;
                  loading := false; isAuthenticated := false |};
       localStorage := localStorage w;
       requests := requests w |}.
Proof.
  unfold initialize, mountEffect, mount, exec, bind at 1 2 3, getItem.
  simpl. by intros ->.
Qed.

Lemma initialize_unverified (w : World) (t : string) :
  autoVerify config = false ->
  truthy (localStorage w !! tokenKey (storage config)) = Some t ->
  initialize' w
  = {| auth := {| token := Some t;
                  refreshToken := refreshToken (restored' t w);
                  user := user (restored' t w);
                  loading := false;
                  isAuthenticated := true |};
       localStorage := localStorage w;
       requests := requests w |}.
Proof.
  unfold initialize, mountEffect, mount, exec, bind at 1 2 3, getItem, restored.
  simpl. intros -> ->.
  destruct (truthy (localStorage w !! _)) as [r|];
    destruct (truthy (localStorage w !! _)) as [s|];
    try destruct (JSON_parse s); reflexivity.
Qed.

Lemma initialize_verified (w : World) (t : string) :
  autoVerify config = true ->
  truthy (localStorage w !! tokenKey (storage config)) = Some t ->
  initialize' w
  = exec (verifyToken API JSON_stringify config backend initialState (Some t))
      {| auth := restored' t w;
         localStorage := localStorage w;
         requests := requests w |}.
Proof.
  unfold initialize, mountEffect, mount, exec at 1, bind at 1 2 3, getItem, restored.
  simpl. intros -> ->.
  destruct (truthy (localStorage w !! _)) as [r|];
    destruct (truthy (localStorage w !! _)) as [s|];
    try destruct (JSON_parse s);
    unfold exec, bind, ret; simpl;
    by destruct (verifyToken _ _ _ _ _ _ _).
Qed.

End Startup.

(** ** Verification from a closure that predates the renewal credential *)

(** A closure that sees no renewal credential gives up as soon as the
    verification is not accepted, whatever the state holds. *)
Lemma verify_from_blind_closure
    (API : string) (JSON_stringify : User -> string)
    (config : AuthConfig) (backend : Backend)
    (view : AuthState) (arg : option string) (w : World) (c : string) :
  truthy (or_else arg (token view)) = Some c ->
  truthy (refreshToken view) = None ->
  acceptance (verifyAnswer API config backend c w) = None ->
  verifyToken API JSON_stringify config backend view arg w
  = (false, exec (giveUp config) (sent (verifyRequest API config c) w)).
Proof.
  intros Hc Hblind Hno.
  rewrite (verify_not_accepted API JSON_stringify config backend view arg w c Hc Hno).
  cbv zeta. by rewrite refresh_unavailable by (by left).
Qed.

(** C5, on the code: the refresh fallback reads the renewal credential of
    the closure, not of the state.  When [verifyToken] is called from a
    closure that predates the renewal credential (the mount effect calls
    the closure of the first render) in a state that holds a credential and
    a renewal credential, with a refresh endpoint configured, a rejected
    verification ends in failure and full logout after the verify request
    alone, although the refresh endpoint would have returned a new
    credential set: the refreshed credential is never adopted. *)
Theorem verifyToken_of_stale_closure_skips_refresh
    (API : string) (JSON_stringify : User -> string)
    (config : AuthConfig) (backend : Backend)
    (view : AuthState) (arg : option string) (w : World)
    (c rt route : string) (d : RefreshData) :
  truthy (or_else arg (token view)) = Some c ->
  truthy (refreshToken view) = None ->
  truthy (refreshToken (auth w)) = Some rt ->
  truthy (refresh (endpoints config)) = Some route ->
  rejection (verifyAnswer API config backend c w) = true ->
  acceptance (refreshAnswer API backend route rt (sent (verifyRequest API config c) w))
    = Some d ->
  result (verifyToken API JSON_stringify config backend view arg) w = false
  /\ auth (exec (verifyToken API JSON_stringify config backend view arg) w)
     = {| token := None; refreshToken := None; user := None;
          loading := false; isAuthenticated := false |}
  /\ token (auth (exec (verifyToken API JSON_stringify config backend view arg) w))
     <> Some (r_token d)
  /\ requests (exec (verifyToken API JSON_stringify config backend view arg) w)
     = (requests w ++ [verifyRequest API config c])%list.
Proof.
  intros Hc Hblind _ _ Hrej _.
  apply rejection_not_accepted in Hrej.
  pose proof (verify_from_blind_closure API JSON_stringify config backend view arg w c
                Hc Hblind Hrej) as E.
  apply run_eq in E as [-> ->].
  rewrite giveUp_auth, giveUp_requests. simpl.
  repeat split. discriminate.
Qed.

Lemma verifyToken_of_stale_closure_skips_refresh_witness :
  initialize Sample.API Sample.stringify Sample.parse defaultAuthConfig Sample.strict
    Sample.seeded
  = exec (verifyToken Sample.API Sample.stringify defaultAuthConfig Sample.strict
            initialState (Some "abc")) Demo.startup
  /\ token (auth Demo.startup) = Some "abc"
  /\ refreshToken (auth Demo.startup) = Some "r"
  /\ result (verifyToken Sample.API Sample.stringify defaultAuthConfig Sample.strict
               initialState (Some "abc")) Demo.startup = false
  /\ requests (exec (verifyToken Sample.API Sample.stringify defaultAuthConfig
                       Sample.strict initialState (Some "abc")) Demo.startup)
     = [verifyRequest Sample.API defaultAuthConfig "abc"].
Proof.
  split.
  { exact (initialize_verified Sample.API Sample.stringify Sample.parse
             defaultAuthConfig Sample.strict Sample.seeded "abc" eq_refl eq_refl). }
  split; [reflexivity|]. split; [reflexivity|].
  destruct (verifyToken_of_stale_closure_skips_refresh Sample.API Sample.stringify
              defaultAuthConfig Sample.strict initialState (Some "abc") Demo.startup
              "abc" "r" "/auth/refresh" Sample.fresh)
    as (H1 & _ & _ & H2).
  - reflexivity.
  - reflexivity.
  - reflexivity.
  - reflexivity.
  - reflexivity.
  - reflexivity.
  - exact (conj H1 H2).
Defined.

(** C6, on the code: from a closure that predates the renewal credential
    (the mount effect calls the closure of the first render) a verify call
    that fails, in a state that holds a credential and a renewal
    credential with a refresh endpoint configured, does end as a rejected
    one does, but in neither case is the refresh fallback attempted: the
    verify request is the only request, and the call ends in failure and
    full logout although the refresh endpoint would have renewed. *)
Theorem verifyToken_of_stale_closure_fails_without_fallback
    (API : string) (JSON_stringify : User -> string) (config : AuthConfig)
    (failing rejecting : Server User) (renewal : Server RefreshData)
    (view : AuthState) (arg : option string) (w : World)
    (c rt route : string) (d : RefreshData) :
  truthy (or_else arg (token view)) = Some c ->
  truthy (refreshToken view) = None ->
  truthy (refreshToken (auth w)) = Some rt ->
  truthy (refresh (endpoints config)) = Some route ->
  failure (failing (length (requests w)) (verifyRequest API config c)) = true ->
  rejection (rejecting (length (requests w)) (verifyRequest API config c)) = true ->
  acceptance (renewal (S (length (requests w))) (refreshRequest API route rt)) = Some d ->
  verifyToken API JSON_stringify config (mkBackend failing renewal) view arg w
  = verifyToken API JSON_stringify config (mkBackend rejecting renewal) view arg w
  /\ result (verifyToken API JSON_stringify config (mkBackend failing renewal) view arg) w
     = false
  /\ auth (exec (verifyToken API JSON_stringify config
                   (mkBackend failing renewal) view arg) w)
     = {| token := None; refreshToken := None; user := None;
          loading := false; isAuthenticated := false |}
  /\ requests (exec (verifyToken API JSON_stringify config
                       (mkBackend failing renewal) view arg) w)
     = (requests w ++ [verifyRequest API config c])%list
  /\ localStorage (exec (verifyToken API JSON_stringify config
                           (mkBackend failing renewal) view arg) w)
       !! tokenKey (storage config) = None.
Proof.
  intros Hc Hblind _ _ Hfail Hrej _.
  apply failure_not_accepted in Hfail.
  apply rejection_not_accepted in Hrej.
  pose proof (verify_from_blind_closure API JSON_stringify config
                (mkBackend failing renewal) view arg w c Hc Hblind Hfail) as E1.
  pose proof (verify_from_blind_closure API JSON_stringify config
                (mkBackend rejecting renewal) view arg w c Hc Hblind Hrej) as E2.
  split; [by rewrite E1, E2|].
  apply run_eq in E1 as [-> ->].
  rewrite giveUp_auth, giveUp_requests. simpl.
  repeat split. apply giveUp_removes. by left.
Qed.

Lemma verifyToken_of_stale_closure_fails_without_fallback_witness :
  initialize Sample.API Sample.stringify Sample.parse defaultAuthConfig Demo.offline
    Sample.seeded
  = exec (verifyToken Sample.API Sample.stringify defaultAuthConfig Demo.offline
            initialState (Some "abc")) Demo.startup
  /\ refreshToken (auth Demo.startup) = Some "r"
  /\ result (verifyToken Sample.API Sample.stringify defaultAuthConfig Demo.offline
               initialState (Some "abc")) Demo.startup = false
  /\ requests (exec (verifyToken Sample.API Sample.stringify defaultAuthConfig
                       Demo.offline initialState (Some "abc")) Demo.startup)
     = [verifyRequest Sample.API defaultAuthConfig "abc"].
Proof.
  split.
  { exact (initialize_verified Sample.API Sample.stringify Sample.parse
             defaultAuthConfig Demo.offline Sample.seeded "abc" eq_refl eq_refl). }
  split; [reflexivity|].
  destruct (verifyToken_of_stale_closure_fails_without_fallback Sample.API
              Sample.stringify defaultAuthConfig Sample.unreachable
              (Sample.rejecting Sample.alice) Sample.renewing
              initialState (Some "abc") Demo.startup
              "abc" "r" "/auth/refresh" Sample.fresh)
    as (_ & H1 & _ & H2 & _).
  - reflexivity.
  - reflexivity.
  - reflexivity.
  - reflexivity.
  - reflexivity.
  - reflexivity.
  - reflexivity.
  - exact (conj H1 H2).
Defined.

(** What a login with all three arguments leaves in the store. *)
Lemma login_full_storage (JSON_stringify : User -> string) (config : AuthConfig)
    (t r : string) (u : User) (w : World) :
  localStorage (exec (login JSON_stringify config t (Some r) (Some u)) w)
  = <[key_coerce (userKey (storage config)) := JSON_stringify u]>
      (if decide (r = "")
       then <[tokenKey (storage config) := t]> (localStorage w)
       else <[key_coerce (refreshTokenKey (storage config)) := r]>
              (<[tokenKey (storage config) := t]> (localStorage w))).
Proof. rewrite login_storage. simpl. by destruct (decide (r = "")). Qed.

Lemma login_full_token (JSON_stringify : User -> string) (config : AuthConfig)
    (t r : string) (u : User) (w : World) :
  r = "" \/ key_coerce (refreshTokenKey (storage config)) <> tokenKey (storage config) ->
  key_coerce (userKey (storage config)) <> tokenKey (storage config) ->
  localStorage (exec (login JSON_stringify config t (Some r) (Some u)) w)
    !! tokenKey (storage config) = Some t.
Proof.
  intros Hr Hu. rewrite login_full_storage.
  rewrite lookup_insert_ne by exact Hu.
  destruct (decide (r = "")) as [|Hne]; [apply lookup_insert_eq|].
  destruct Hr as [Hr | Hr]; [done|].
  rewrite lookup_insert_ne by exact Hr. apply lookup_insert_eq.
Qed.

(** C3, refuted as stated: with the storage record of the documentation's
    example, which names no renewal key, the renewal credential of a full
    login is not restored by a fresh start; and with the empty string as
    credential nothing is restored at all. *)
Lemma login_then_initialize_loses_what_it_cannot_read :
  refreshToken
    (auth (initialize Sample.API Sample.stringify Sample.parse Demo.readme
             Sample.strict
             (exec (login Sample.stringify Demo.readme "abc" (Some "r")
                      (Some Sample.alice)) Sample.empty))) = None
  /\ auth (initialize Sample.API Sample.stringify Sample.parse Sample.unverified
             Sample.strict
             (exec (login Sample.stringify Sample.unverified "" (Some "r")
                      (Some Sample.alice)) Sample.empty))
     = {| token := None; refreshToken := None; user := None;
          loading := false; isAuthenticated := false |}.
Proof. split; vm_compute; reflexivity. Qed.

(** C3, amended: with [autoVerify] off, a login with a credential [t], a
    renewal credential [r] and a principal [u] followed by a fresh start
    over the same store issues no request, leaves the store as the login
    left it and ends with [loading] false.  When [t] is not empty and no
    later write of the login went to the token key, the fresh start
    restores [t] with [isAuthenticated] true; it then restores [r] when [r]
    is not empty and the configuration names a renewal key (one the
    principal was not written to), and [u] when the configuration names a
    user key and [u] survives the JSON round trip.  When the configuration
    names no renewal key, [r] was written under the key [undefined] and
    the fresh start reads the empty key: the renewal credential of the
    state is what the store held there before the login.  When [t] is the
    empty string the fresh start restores nothing and leaves the state
    unauthenticated. *)
Theorem login_then_initialize_restores
    (API : string) (JSON_stringify : User -> string)
    (JSON_parse : string -> option User)
    (config : AuthConfig) (backend : Backend)
    (t r : string) (u : User) (w : World) :
  autoVerify config = false ->
  requests (initialize API JSON_stringify JSON_parse config backend
              (exec (login JSON_stringify config t (Some r) (Some u)) w))
  = requests w
  /\ localStorage (initialize API JSON_stringify JSON_parse config backend
                     (exec (login JSON_stringify config t (Some r) (Some u)) w))
     = localStorage (exec (login JSON_stringify config t (Some r) (Some u)) w)
  /\ loading (auth (initialize API JSON_stringify JSON_parse config backend
                      (exec (login JSON_stringify config t (Some r) (Some u)) w)))
     = false
  /\ (r = "" \/ key_coerce (refreshTokenKey (storage config)) <> tokenKey (storage config) ->
      key_coerce (userKey (storage config)) <> tokenKey (storage config) ->
      (t <> "" ->
         token (auth (initialize API JSON_stringify JSON_parse config backend
                        (exec (login JSON_stringify config t (Some r) (Some u)) w)))
         = Some t
         /\ isAuthenticated
              (auth (initialize API JSON_stringify JSON_parse config backend
                       (exec (login JSON_stringify config t (Some r) (Some u)) w)))
            = true
         /\ (forall rk, refreshTokenKey (storage config) = Some rk ->
               r <> "" -> key_coerce (userKey (storage config)) <> rk ->
               refreshToken
                 (auth (initialize API JSON_stringify JSON_parse config backend
                          (exec (login JSON_stringify config t (Some r) (Some u)) w)))
               = Some r)
         /\ (forall uk, userKey (storage config) = Some uk ->
               JSON_stringify u <> "" ->
               JSON_parse (JSON_stringify u) = Some u ->
               user
                 (auth (initialize API JSON_stringify JSON_parse config backend
                          (exec (login JSON_stringify config t (Some r) (Some u)) w)))
               = Some u)
         /\ (refreshTokenKey (storage config) = None ->
             tokenKey (storage config) <> "" ->
             key_coerce (userKey (storage config)) <> "" ->
             refreshToken
               (auth (initialize API JSON_stringify JSON_parse config backend
                        (exec (login JSON_stringify config t (Some r) (Some u)) w)))
             = truthy (localStorage w !! "")))
      /\ (t = "" ->
           auth (initialize API JSON_stringify JSON_parse config backend
                   (exec (login JSON_stringify config t (Some r) (Some u)) w))
           = {| token := None; refreshToken := None; user := None;
                loading := false; isAuthenticated := false |})).
Proof.
  intros Hauto.
  set (w1 := exec (login JSON_stringify config t (Some r) (Some u)) w).
  assert (Hbase : requests (initialize API JSON_stringify JSON_parse config backend w1)
                  = requests w
                  /\ localStorage (initialize API JSON_stringify JSON_parse config backend w1)
                     = localStorage w1
                  /\ loading (auth (initialize API JSON_stringify JSON_parse config
                                      backend w1)) = false).
  { destruct (truthy (localStorage w1 !! tokenKey (storage config))) as [t'|] eqn:Ht.
    - rewrite (initialize_unverified API JSON_stringify JSON_parse config backend w1 t'
                 Hauto Ht).
      simpl. subst w1. by rewrite login_requests.
    - rewrite (initialize_without_credential API JSON_stringify JSON_parse config
                 backend w1 Ht).
      simpl. subst w1. by rewrite login_requests. }
  destruct Hbase as (H1 & H2 & H3).
  split; [exact H1|]. split; [exact H2|]. split; [exact H3|].
  intros Hr Hu.
  pose proof (login_full_token JSON_stringify config t r u w Hr Hu) as Htok.
  fold w1 in Htok.
  split.
  - intros Hne.
    assert (Ht : truthy (localStorage w1 !! tokenKey (storage config)) = Some t)
      by (rewrite Htok; by apply truthy_nonempty).
    rewrite (initialize_unverified API JSON_stringify JSON_parse config backend w1 t
               Hauto Ht).
    simpl. split; [reflexivity|]. split; [reflexivity|].
    subst w1. rewrite login_full_storage.
    split; [|split].
    + intros rk Hrk Hrne Hurk. rewrite Hrk, key_read. rewrite Hrk in *. simpl key_coerce.
      rewrite lookup_insert_ne by exact Hurk.
      destruct (decide (r = "")); [done|].
      rewrite lookup_insert_eq. by apply truthy_nonempty.
    + intros uk Huk Hs Hparse. rewrite Huk, key_read. simpl key_coerce.
      rewrite lookup_insert_eq, (truthy_nonempty _ Hs). exact Hparse.
    + intros Hrk Htk Huk. rewrite Hrk. simpl.
      rewrite lookup_insert_ne by exact Huk.
      destruct (decide (r = ""));
        rewrite ?lookup_insert_ne by done; reflexivity.
  - intros ->.
    apply (f_equal auth
             (initialize_without_credential API JSON_stringify JSON_parse config
                backend w1 (f_equal truthy Htok))).
Qed.

Lemma login_then_initialize_restores_witness :
  auth (initialize Sample.API Sample.stringify Sample.parse Sample.unverified
          Sample.strict
          (exec (login Sample.stringify Sample.unverified "abc" (Some "r")
                   (Some Sample.alice)) Sample.empty))
  = {| token := Some "abc"; refreshToken := Some "r"; user := Some Sample.alice;
       loading := false; isAuthenticated := true |}
  /\ requests (initialize Sample.API Sample.stringify Sample.parse Sample.unverified
                 Sample.strict
                 (exec (login Sample.stringify Sample.unverified "abc" (Some "r")
                          (Some Sample.alice)) Sample.empty))
     = [].
Proof.
  destruct (login_then_initialize_restores Sample.API Sample.stringify
              Sample.parse Sample.unverified Sample.strict "abc" "r" Sample.alice
              Sample.empty eq_refl) as (Hreq & _ & Hload & H).
  destruct H as [H _]; [right; discriminate | discriminate |].
  destruct H as (Ht & Ha & Hr & Hu & _); [discriminate|].
  specialize (Hr "refreshToken" eq_refl).
  specialize (Hu "user" eq_refl).
  split; [|exact Hreq].
  destruct (auth _) as [tk rt us ld au]; simpl in *.
  rewrite Ht, Ha, Hload, Hr, Hu; try reflexivity; discriminate.
Defined.

(** The amended round trip at the default keys: everything is restored. *)
Example login_then_initialize_default_keys :
  auth (initialize Sample.API Sample.stringify Sample.parse Sample.unverified
          Sample.strict
          (exec (login Sample.stringify Sample.unverified "abc" (Some "r")
                   (Some Sample.alice)) Sample.empty))
  = {| token := Some "abc"; refreshToken := Some "r"; user := Some Sample.alice;
       loading := false; isAuthenticated := true |}.
Proof. vm_compute. reflexivity. Qed.

(** C2, on the code: in the start-up chain a verification that is not
    accepted always ends in the logged-out state.  The closure that the
    mount effect calls belongs to the first render and sees no renewal
    credential, so whatever the store holds and whatever the refresh
    endpoint would answer, no refresh request is issued: the machine
    settles with [loading] false, but with [isAuthenticated] false and the
    store cleared. *)
Theorem initialize_rejected_verify_ends_logged_out
    (API : string) (JSON_stringify : User -> string)
    (JSON_parse : string -> option User)
    (config : AuthConfig) (backend : Backend) (w : World) (t : string) :
  autoVerify config = true ->
  truthy (localStorage w !! tokenKey (storage config)) = Some t ->
  acceptance (verifyServer backend (length (requests w)) (verifyRequest API config t))
    = None ->
  auth (initialize API JSON_stringify JSON_parse config backend w)
  = {| token := None; refreshToken := None; user := None;
       loading := false; isAuthenticated := false |}
  /\ requests (initialize API JSON_stringify JSON_parse config backend w)
     = (requests w ++ [verifyRequest API config t])%list
  /\ localStorage (initialize API JSON_stringify JSON_parse config backend w)
       !! tokenKey (storage config) = None.
Proof.
  intros Hauto Ht Hno.
  rewrite (initialize_verified API JSON_stringify JSON_parse config backend w t Hauto Ht).
  destruct (truthy_Some _ _ Ht) as [_ Hne].
  pose proof (verify_not_accepted API JSON_stringify config backend initialState
                (Some t)
                {| auth := restored JSON_parse config t w;
                   localStorage := localStorage w;
                   requests := requests w |}
                t (truthy_or_else_l _ _ _ (truthy_nonempty t Hne)) Hno) as E.
  cbv zeta in E. rewrite refresh_unavailable in E by (by left). simpl in E.
  apply run_eq in E as [_ ->].
  rewrite giveUp_auth, giveUp_requests. simpl.
  repeat split. apply giveUp_removes. by left.
Qed.

Lemma initialize_rejected_verify_ends_logged_out_witness :
  auth (initialize Sample.API Sample.stringify Sample.parse defaultAuthConfig
          Sample.strict Sample.seeded)
  = {| token := None; refreshToken := None; user := None;
       loading := false; isAuthenticated := false |}
  /\ requests (initialize Sample.API Sample.stringify Sample.parse defaultAuthConfig
                 Sample.strict Sample.seeded)
     = ([] ++ [verifyRequest Sample.API defaultAuthConfig "abc"])%list
  /\ localStorage (initialize Sample.API Sample.stringify Sample.parse
                     defaultAuthConfig Sample.strict Sample.seeded)
       !! "authToken" = None.
Proof.
  apply (initialize_rejected_verify_ends_logged_out Sample.API Sample.stringify
           Sample.parse defaultAuthConfig Sample.strict Sample.seeded "abc").
  - reflexivity.
  - reflexivity.
  - reflexivity.
Defined.

(** C1, on the code: an accepted [verifyToken] raises [isAuthenticated]
    and stores the principal but never writes the credential cell.  Called
    with a credential at hand (for instance as an explicit argument) in a
    state whose credential is null, it returns success and leaves
    [isAuthenticated] true with the credential still null. *)
Theorem verifyToken_accepted_leaves_credential_null
    (API : string) (JSON_stringify : User -> string)
    (config : AuthConfig) (backend : Backend)
    (view : AuthState) (arg : option string) (w : World) (c : string) (u : User) :
  token (auth w) = None ->
  truthy (or_else arg (token view)) = Some c ->
  acceptance (verifyAnswer API config backend c w) = Some u ->
  result (verifyToken API JSON_stringify config backend view arg) w = true
  /\ isAuthenticated (auth (exec (verifyToken API JSON_stringify config backend view arg) w))
     = true
  /\ token (auth (exec (verifyToken API JSON_stringify config backend view arg) w))
     = None
  /\ ~ consistent (auth (exec (verifyToken API JSON_stringify config backend view arg) w)).
Proof.
  intros Hnull Hc Hacc.
  pose proof (verify_accepted API JSON_stringify config backend view arg w c u Hc Hacc) as E.
  apply run_eq in E as [-> ->].
  assert (A : auth (exec (setIsAuthenticated true ;; setUser (Some u) ;; setLoading false ;;
                          match truthy (userKey (storage config)) with
                          | Some k => setItem k (JSON_stringify u)
                          | None => ret tt
                          end) (sent (verifyRequest API config c) w))
              = {| token := token (auth w); refreshToken := refreshToken (auth w);
                   user := Some u; loading := false; isAuthenticated := true |}).
  { by destruct (truthy (userKey (storage config))). }
  rewrite A, Hnull. simpl. repeat split.
  unfold consistent. simpl. intros H. by apply H.
Qed.

Lemma verifyToken_accepted_leaves_credential_null_witness :
  consistent (auth (initialize Sample.API Sample.stringify Sample.parse
                      defaultAuthConfig Sample.lenient Sample.empty))
  /\ ~ consistent
        (auth (exec (verifyToken Sample.API Sample.stringify defaultAuthConfig
                       Sample.lenient
                       (auth (initialize Sample.API Sample.stringify Sample.parse
                                defaultAuthConfig Sample.lenient Sample.empty))
                       (Some "abc"))
                 (initialize Sample.API Sample.stringify Sample.parse
                    defaultAuthConfig Sample.lenient Sample.empty))).
Proof.
  split.
  - unfold consistent. vm_compute. discriminate.
  - apply (verifyToken_accepted_leaves_credential_null Sample.API Sample.stringify
             defaultAuthConfig Sample.lenient _ (Some "abc") _ "abc" Sample.alice).
    + reflexivity.
    + reflexivity.
    + reflexivity.
Defined.

(** ** The theorems above at sample inputs *)


Lemma verifyToken_rejected_then_refreshed_witness :
  result (verifyToken Sample.API Sample.stringify defaultAuthConfig Sample.strict
            (auth Sample.session) None) Sample.session = true
  /\ isAuthenticated
       (auth (exec (verifyToken Sample.API Sample.stringify defaultAuthConfig
                      Sample.strict (auth Sample.session) None) Sample.session))
     = true
  /\ token
       (auth (exec (verifyToken Sample.API Sample.stringify defaultAuthConfig
                      Sample.strict (auth Sample.session) None) Sample.session))
     = Some "new".
Proof.
  destruct (verifyToken_rejected_then_refreshed Sample.API Sample.stringify
              defaultAuthConfig Sample.strict (auth Sample.session) None
              Sample.session "abc" "r" "/auth/refresh" Sample.fresh)
    as (H1 & H2 & H3 & _).
  - reflexivity.
  - reflexivity.
  - reflexivity.
  - reflexivity.
  - reflexivity.
  - exact (conj H1 (conj H2 H3)).
Defined.

Lemma verifyToken_failure_as_rejection_witness :
  verifyToken Sample.API Sample.stringify defaultAuthConfig
    (mkBackend Sample.unreachable Sample.renewing) (auth Sample.session) None
    Sample.session
  = verifyToken Sample.API Sample.stringify defaultAuthConfig
      (mkBackend (Sample.rejecting Sample.alice) Sample.renewing)
      (auth Sample.session) None Sample.session.
Proof.
  destruct (verifyToken_failure_as_rejection Sample.API Sample.stringify
              defaultAuthConfig Sample.unreachable (Sample.rejecting Sample.alice)
              Sample.renewing (auth Sample.session) None Sample.session
              "abc" "r" "/auth/refresh")
    as (H & _).
  - reflexivity.
  - reflexivity.
  - reflexivity.
  - reflexivity.
  - reflexivity.
  - exact H.
Defined.

(** ** What the other operations preserve *)

Section Invariants.

Variable API : string.
Variable JSON_stringify : User -> string.
Variable JSON_parse : string -> option User.
Variable config : AuthConfig.
Variable backend : Backend.

Lemma updateUser_auth (u : User) (w : World) :
  auth (exec (updateUser JSON_stringify config u) w)
  = {| token := token (auth w); refreshToken := refreshToken (auth w);
       user := Some u; loading := loading (auth w);
       isAuthenticated := isAuthenticated (auth w) |}.
Proof. unfold updateUser. by destruct (truthy (userKey (storage config))). Qed.

Lemma login_consistent (t : string) (r : option string) (u : option User) (w : World) :
  consistent (auth (exec (login JSON_stringify config t r u) w)).
Proof. rewrite login_auth. unfold consistent. simpl. discriminate. Qed.

Lemma logout_consistent (w : World) : consistent (auth (exec (logout config) w)).
Proof. rewrite logout_auth. unfold consistent. simpl. discriminate. Qed.

Lemma updateUser_consistent (u : User) (w : World) :
  consistent (auth w) -> consistent (auth (exec (updateUser JSON_stringify config u) w)).
Proof. rewrite updateUser_auth. unfold consistent. simpl. auto. Qed.

Lemma refreshAccessToken_consistent (view : AuthState) (w : World) :
  consistent (auth w) ->
  consistent (auth (exec (refreshAccessToken API JSON_stringify config backend view) w)).
Proof.
  intros Hw.
  destruct (truthy (refreshToken view)) as [rt|] eqn:Hrt;
    [destruct (truthy (refresh (endpoints config))) as [route|] eqn:Hroute|].
  - destruct (acceptance (refreshAnswer API backend route rt w)) as [d|] eqn:Hd.
    + unfold exec at 1.
      rewrite (refresh_accepted API JSON_stringify config backend view w rt route d)
        by assumption.
      apply login_consistent.
    + unfold exec at 1.
      rewrite (refresh_rejected API JSON_stringify config backend view w rt route)
        by assumption.
      apply logout_consistent.
  - unfold exec. by rewrite refresh_unavailable by auto.
  - unfold exec. by rewrite refresh_unavailable by auto.
Qed.

(** In every case the machine comes out of start-up with [loading] false
    and in a consistent state. *)
Lemma initialize_settles (w : World) :
  loading (auth (initialize API JSON_stringify JSON_parse config backend w)) = false
  /\ consistent (auth (initialize API JSON_stringify JSON_parse config backend w)).
Proof.
  destruct (truthy (localStorage w !! tokenKey (storage config))) as [t|] eqn:Ht.
  - destruct (autoVerify config) eqn:Hauto.
    + rewrite (initialize_verified API JSON_stringify JSON_parse config backend w t Hauto Ht).
      destruct (truthy_Some _ _ Ht) as [_ Hne].
      pose proof (truthy_or_else_l (Some t) (token initialState) t
                    (truthy_nonempty t Hne)) as Hc.
      set (w1 := {| auth := restored JSON_parse config t w;
                    localStorage := localStorage w;
                    requests := requests w |}).
      destruct (acceptance (verifyAnswer API config backend t w1)) as [u|] eqn:Hacc.
      * unfold exec.
        rewrite (verify_accepted API JSON_stringify config backend initialState
                   (Some t) w1 t u Hc Hacc).
        destruct (truthy (userKey (storage config))); simpl;
          (split; [reflexivity | unfold consistent; simpl; discriminate]).
      * unfold exec.
        rewrite (verify_not_accepted API JSON_stringify config backend initialState
                   (Some t) w1 t Hc Hacc).
        cbv zeta. rewrite refresh_unavailable by (by left). simpl.
        rewrite giveUp_auth. simpl.
        split; [reflexivity | unfold consistent; simpl; discriminate].
    + rewrite (initialize_unverified API JSON_stringify JSON_parse config backend w t Hauto Ht).
      simpl. split; [reflexivity | unfold consistent; simpl; discriminate].
  - rewrite (initialize_without_credential API JSON_stringify JSON_parse config backend w Ht).
    simpl. split; [reflexivity | unfold consistent; simpl; discriminate].
Qed.

(** No operation raises [loading]: once down it stays down. *)
Lemma verifyToken_loading (view : AuthState) (arg : option string) (w : World) :
  loading (auth w) = false ->
  loading (auth (exec (verifyToken API JSON_stringify config backend view arg) w)) = false.
Proof.
  intros Hw.
  destruct (truthy (or_else arg (token view))) as [c|] eqn:Hc.
  - destruct (acceptance (verifyAnswer API config backend c w)) as [u|] eqn:Hacc.
    + unfold exec at 1.
      rewrite (verify_accepted API JSON_stringify config backend view arg w c u Hc Hacc).
      by destruct (truthy (userKey (storage config))).
    + unfold exec at 1.
      rewrite (verify_not_accepted API JSON_stringify config backend view arg w c Hc Hacc).
      cbv zeta.
      destruct (refreshAccessToken _ _ _ _ _ _) as [[] w2] eqn:E; simpl.
      * destruct (truthy (refreshToken view)) as [rt|] eqn:Hrt;
          [destruct (truthy (refresh (endpoints config))) as [route|] eqn:Hroute|].
        -- destruct (acceptance (refreshAnswer API backend route rt
                       (sent (verifyRequest API config c) w))) as [d|] eqn:Hd.
           ++ rewrite (refresh_accepted API JSON_stringify config backend view _ rt route d)
                in E by assumption.
              injection E as <-. by rewrite login_auth.
           ++ rewrite (refresh_rejected API JSON_stringify config backend view _ rt route)
                in E by assumption.
              discriminate.
        -- rewrite refresh_unavailable in E by auto. discriminate.
        -- rewrite refresh_unavailable in E by auto. discriminate.
      * by rewrite giveUp_auth.
  - unfold exec. by rewrite verify_without_credential.
Qed.

End Invariants.

(** The recovered path of [verifyToken] returns without lowering
    [loading]: called from a render that already sees the restored renewal
    credential, while start-up is still pending, it leaves [loading] up. *)
Example verifyToken_recovery_leaves_loading_up :
  loading (auth (mount Sample.session)) = true
  /\ result (verifyToken Sample.API Sample.stringify defaultAuthConfig Sample.strict
              (auth Sample.session) None) (mount Sample.session) = true
  /\ loading (auth (exec (verifyToken Sample.API Sample.stringify defaultAuthConfig
                           Sample.strict (auth Sample.session) None)
                     (mount Sample.session))) = true.
Proof. repeat split. Qed.

(** [verifyToken] keeps the invariant whenever the credential cell is not
    null when it runs. *)
Lemma verifyToken_consistent_with_credential
    (API : string) (JSON_stringify : User -> string)
    (config : AuthConfig) (backend : Backend)
    (view : AuthState) (arg : option string) (w : World) :
  consistent (auth w) ->
  token (auth w) <> None ->
  consistent (auth (exec (verifyToken API JSON_stringify config backend view arg) w)).
Proof.
  intros Hw Htok.
  destruct (truthy (or_else arg (token view))) as [c|] eqn:Hc.
  - destruct (acceptance (verifyAnswer API config backend c w)) as [u|] eqn:Hacc.
    + unfold exec at 1.
      rewrite (verify_accepted API JSON_stringify config backend view arg w c u Hc Hacc).
      unfold consistent.
      by destruct (truthy (userKey (storage config))).
    + unfold exec at 1.
      rewrite (verify_not_accepted API JSON_stringify config backend view arg w c Hc Hacc).
      cbv zeta.
      pose proof (refreshAccessToken_consistent API JSON_stringify config backend view
                    (sent (verifyRequest API config c) w) Hw) as Hr.
      unfold exec in Hr.
      destruct (refreshAccessToken _ _ _ _ _ _) as [[] w2]; simpl in *; [exact Hr|].
      rewrite giveUp_auth. unfold consistent. simpl. discriminate.
  - unfold exec. rewrite verify_without_credential by exact Hc.
    unfold consistent in *. simpl. auto.
Qed.

(** ** The guard's effect *)

(** While the provider is loading the guard waits: no request, no change,
    [isChecking] as it was. *)
Lemma guardEffect_waits
    (API : string) (JSON_stringify : User -> string)
    (config : AuthConfig) (backend : Backend)
    (snapshot : AuthState) (isChecking : bool) (w : World) :
  loading snapshot = true ->
  guardEffect API JSON_stringify config backend snapshot isChecking w
  = (isChecking, w).
Proof. unfold guardEffect. by intros ->. Qed.

(** Once loading is over the effect lowers [isChecking]; without a
    credential in the snapshot it does nothing else. *)
Lemma guardEffect_lowers
    (API : string) (JSON_stringify : User -> string)
    (config : AuthConfig) (backend : Backend)
    (snapshot : AuthState) (isChecking : bool) (w : World) :
  loading snapshot = false ->
  result (guardEffect API JSON_stringify config backend snapshot isChecking) w = false
  /\ (truthy (token snapshot) = None ->
      exec (guardEffect API JSON_stringify config backend snapshot isChecking) w = w).
Proof.
  unfold guardEffect, checkAuth. intros ->.
  destruct (truthy (token snapshot)) as [t|]; [|by split].
  split; [|discriminate].
  unfold result, bind, ret.
  by destruct (verifyToken _ _ _ _ _ _ _).
Qed.

(** * Further properties *)

(** ** The fetch helpers *)

Lemma isSuccessStatus_range (st : Z) :
  isSuccessStatus st = true -> (200 <= st < 300)%Z.
Proof. unfold isSuccessStatus. intros H%andb_true_iff. lia. Qed.

Ltac well_formed :=
  unfold wellFormed; simpl;
  intuition (try discriminate; try congruence; try assumption).

Lemma caught_wellFormed {T : Type} (err : string) : wellFormed (@caught T err).
Proof. unfold caught. well_formed. Qed.

Lemma interpret_wellFormed {T : Type} (o : FetchOutcome T) :
  wellFormed (interpret o).
Proof.
  destruct o as [err | st ct body]; [apply caught_wellFormed|].
  unfold interpret.
  destruct (includes (default "" (truthy ct)) "application/json");
    [|well_formed].
  destruct body as [err | | v msg]; [apply caught_wellFormed | |];
    destruct ((200 <=? st)%Z && (st <? 300)%Z)%bool eqn:E;
    try apply caught_wellFormed;
    try pose proof (isSuccessStatus_range st E);
    well_formed.
Qed.

Lemma getFetch_run (API : string) {T : Type} (server : Server T)
    (route : string) (hdrs : gmap string string) (w : World) :
  getFetch API server route hdrs w
  = (interpret (server (length (requests w)) (getRequest API route hdrs)),
     sent (getRequest API route hdrs) w).
Proof. reflexivity. Qed.

Lemma deleteFetch_run (API : string) {T : Type} (server : Server T)
    (route : string) (hdrs : gmap string string) (w : World) :
  deleteFetch API server route hdrs w
  = (interpret (server (length (requests w)) (deleteRequest API route hdrs)),
     sent (deleteRequest API route hdrs) w).
Proof. reflexivity. Qed.

Lemma bodyFetch_run (API : string) {D T : Type} (stringify : D -> Stringified)
    (verb : string) (server : BodyServer T) (route : string) (data : Payload D)
    (hdrs : gmap string string) (w : World) :
  bodyFetch API stringify verb server route data hdrs w
  = match serialize stringify data with
    | inl err => (caught err, w)
    | inr body =>
        (interpret (server (length (requests w))
                      (bodyRequest API verb route data hdrs) body),
         sent (bodyRequest API verb route data hdrs) w)
    end.
Proof. unfold bodyFetch. by destruct (serialize stringify data). Qed.

(** X1: whatever the remote side answers, and whatever the data, each of
    the five helpers returns a well-formed response: it carries an error
    text exactly when it does not report success, it carries data only
    when it reports success, and it reports success only with a status
    between 200 and 299. *)
Theorem fetch_helpers_return_well_formed_responses
    (API : string) (D T : Type) (stringify : D -> Stringified)
    (server : Server T) (bserver : BodyServer T)
    (route : string) (data : Payload D) (hdrs : gmap string string) (w : World) :
  wellFormed (result (getFetch API server route hdrs) w)
  /\ wellFormed (result (postFetch API stringify bserver route data hdrs) w)
  /\ wellFormed (result (putFetch API stringify bserver route data hdrs) w)
  /\ wellFormed (result (patchFetch API stringify bserver route data hdrs) w)
  /\ wellFormed (result (deleteFetch API server route hdrs) w).
Proof.
  unfold postFetch, putFetch, patchFetch, result.
  rewrite getFetch_run, deleteFetch_run, !bodyFetch_run.
  destruct (serialize stringify data); simpl;
    (split; [|split; [|split; [|split]]]);
    first [apply interpret_wellFormed | apply caught_wellFormed].
Qed.

(** X2: when the call fails (no answer from the network, a JSON body that
    cannot be parsed, or an error body that is [null]) [getFetch] does not
    throw: it returns status 500, no data, [success] false and an error
    text, after the one request it sent. *)
Theorem getFetch_reports_failures_as_500
    (API : string) (T : Type) (server : Server T)
    (route : string) (hdrs : gmap string string) (w : World) :
  failure (server (length (requests w)) (getRequest API route hdrs)) = true ->
  status (result (getFetch API server route hdrs) w) = 500%Z
  /\ data (result (getFetch API server route hdrs) w) = None
  /\ success (result (getFetch API server route hdrs) w) = false
  /\ error (result (getFetch API server route hdrs) w) <> None
  /\ issued w (exec (getFetch API server route hdrs) w) [getRequest API route hdrs].
Proof.
  intros H. unfold result, exec, issued. rewrite getFetch_run. simpl.
  destruct (failure_interpret _ H) as [err ->]. simpl.
  repeat split. discriminate.
Qed.

Lemma getFetch_reports_failures_as_500_witness :
  status (result (getFetch Sample.API (@Sample.unreachable User) "/auth/me" ∅)
            Sample.empty) = 500%Z.
Proof.
  exact (proj1 (getFetch_reports_failures_as_500 Sample.API User
                  Sample.unreachable "/auth/me" ∅ Sample.empty eq_refl)).
Defined.

(** X3: an answer that is not announced as JSON is never a success,
    whatever its status (200 included): [getFetch] keeps the status,
    returns no data and the fixed error text, and does not read the body. *)
Theorem getFetch_refuses_non_json
    (API : string) (T : Type) (server : Server T)
    (route : string) (hdrs : gmap string string) (w : World)
    (st : Z) (ct : option string) (body : JsonBody T) :
  server (length (requests w)) (getRequest API route hdrs) = FetchResponse st ct body ->
  includes (default "" (truthy ct)) "application/json" = false ->
  result (getFetch API server route hdrs) w
  = {| status := st; data := None;
       error := Some "Received non-JSON response from server";
       success := false |}.
Proof.
  intros H1 H2. unfold result. rewrite getFetch_run, H1. simpl. by rewrite H2.
Qed.

Lemma getFetch_refuses_non_json_witness :
  result (getFetch Sample.API
            (fun _ _ => FetchResponse 200 (Some "text/html") (JsonValue Sample.alice None))
            "/auth/me" ∅) Sample.empty
  = {| status := 200; data := None;
       error := Some "Received non-JSON response from server";
       success := false |}.
Proof.
  apply (getFetch_refuses_non_json Sample.API User _ "/auth/me" ∅ Sample.empty
           200 (Some "text/html") (JsonValue Sample.alice None)).
  - reflexivity.
  - reflexivity.
Defined.

(** X4: [getFetch] sends exactly one request and touches neither the
    session state nor the store.  The request is a GET to the base address
    followed by the route; it carries every header of the caller, and the
    JSON content type unless the caller gives a [Content-Type] of its own. *)
Theorem getFetch_sends_one_get_request
    (API : string) (T : Type) (server : Server T)
    (route : string) (hdrs : gmap string string) (w : World) :
  sameSession w (exec (getFetch API server route hdrs) w)
  /\ issued w (exec (getFetch API server route hdrs) w) [getRequest API route hdrs]
  /\ url (getRequest API route hdrs) = API +:+ route
  /\ method (getRequest API route hdrs) = "GET"
  /\ (forall k v, hdrs !! k = Some v ->
        headers (getRequest API route hdrs) !! k = Some v)
  /\ (hdrs !! "Content-Type" = None ->
        headers (getRequest API route hdrs) !! "Content-Type"
        = Some "application/json")
  /\ (forall k, k <> "Content-Type" -> hdrs !! k = None ->
        headers (getRequest API route hdrs) !! k = None).
Proof.
  unfold exec, sameSession, issued. rewrite getFetch_run. simpl.
  repeat split.
  - intros k v H. by apply lookup_union_Some_l.
  - intros H. rewrite lookup_union_r by exact H. apply lookup_singleton_eq.
  - intros k Hk H. rewrite lookup_union_r by exact H. by apply lookup_singleton_ne.
Qed.

(** X5: [withAuth] adds the bearer authorization for the given token and
    keeps every header it is given; a given [Authorization] header wins
    over the token. *)
Theorem withAuth_keeps_given_headers (tok : string) (hdrs : gmap string string) :
  (hdrs !! "Authorization" = None ->
     withAuth tok hdrs !! "Authorization" = Some ("Bearer " +:+ tok))
  /\ (forall k v, hdrs !! k = Some v -> withAuth tok hdrs !! k = Some v)
  /\ (forall k, k <> "Authorization" -> withAuth tok hdrs !! k = hdrs !! k).
Proof.
  unfold withAuth. repeat split.
  - intros H. rewrite lookup_union_r by exact H. apply lookup_singleton_eq.
  - intros k v H. by apply lookup_union_Some_l.
  - intros k Hk. rewrite lookup_union, lookup_singleton_ne by done.
    by destruct (hdrs !! k).
Qed.

(** X6: the two requests of the session are GET requests with the JSON
    content type; the verify request goes to the base address followed by
    the verify endpoint and bears the credential being verified, the
    refresh request bears the renewal credential. *)
Theorem session_requests_bear_their_credential
    (API : string) (config : AuthConfig) (c route rt : string) :
  url (verifyRequest API config c) = API +:+ verify (endpoints config)
  /\ method (verifyRequest API config c) = "GET"
  /\ headers (verifyRequest API config c) !! "Authorization" = Some ("Bearer " +:+ c)
  /\ headers (verifyRequest API config c) !! "Content-Type" = Some "application/json"
  /\ url (refreshRequest API route rt) = API +:+ route
  /\ method (refreshRequest API route rt) = "GET"
  /\ headers (refreshRequest API route rt) !! "Authorization" = Some ("Bearer " +:+ rt)
  /\ headers (refreshRequest API route rt) !! "Content-Type" = Some "application/json".
Proof.
  unfold verifyRequest, refreshRequest, getRequest, withAuth; simpl.
  repeat split; by simplify_map_eq.
Qed.

Lemma bodyFetch_thrown (API : string) {D T : Type} (stringify : D -> Stringified)
    (verb : string) (server : BodyServer T) (route : string) (d : D) (err : string)
    (hdrs : gmap string string) (w : World) :
  stringify d = JsonThrown err ->
  bodyFetch API stringify verb server route (Plain d) hdrs w = (caught err, w).
Proof. intros H. rewrite bodyFetch_run. simpl. by rewrite H. Qed.

(** X7: when the data cannot be serialised ([JSON.stringify] throws),
    [postFetch], [putFetch] and [patchFetch] send nothing: they return
    status 500 with the error text, and the world is as it was. *)
Theorem body_helpers_send_nothing_on_serialisation_error
    (API : string) (D T : Type) (stringify : D -> Stringified)
    (server : BodyServer T) (route : string) (d : D) (err : string)
    (hdrs : gmap string string) (w : World) :
  stringify d = JsonThrown err ->
  postFetch API stringify server route (Plain d) hdrs w = (caught err, w)
  /\ putFetch API stringify server route (Plain d) hdrs w = (caught err, w)
  /\ patchFetch API stringify server route (Plain d) hdrs w = (caught err, w)
  /\ status (@caught T err) = 500%Z
  /\ success (@caught T err) = false.
Proof.
  intros H. unfold postFetch, putFetch, patchFetch.
  rewrite !(bodyFetch_thrown API stringify _ server route d err hdrs w H).
  repeat split.
Qed.

Lemma body_helpers_send_nothing_on_serialisation_error_witness :
  postFetch Sample.API Demo.stringify Demo.silent "/users" (Plain Demo.Cyclic) ∅
    Sample.empty
  = (caught "Converting circular structure to JSON", Sample.empty).
Proof.
  exact (proj1 (body_helpers_send_nothing_on_serialisation_error Sample.API
                  Demo.Value User Demo.stringify Demo.silent "/users" Demo.Cyclic
                  "Converting circular structure to JSON" ∅ Sample.empty eq_refl)).
Defined.

Lemma bodyFetch_sent (API : string) {D T : Type} (stringify : D -> Stringified)
    (verb : string) (server : BodyServer T) (route : string) (data : Payload D)
    (hdrs : gmap string string) (w : World) (body : option Body) :
  serialize stringify data = inr body ->
  bodyFetch API stringify verb server route data hdrs w
  = (interpret (server (length (requests w))
                  (bodyRequest API verb route data hdrs) body),
     sent (bodyRequest API verb route data hdrs) w).
Proof. intros H. by rewrite bodyFetch_run, H. Qed.

(** X8: with a [FormData] payload [postFetch], [putFetch] and
    [patchFetch] send one request whose headers are exactly the caller's
    (no content type is added) and whose body is the form itself; the
    session state and the store are untouched. *)
Theorem body_helpers_leave_form_data_untyped
    (API : string) (D T : Type) (stringify : D -> Stringified)
    (server : BodyServer T) (route : string) (fields : list (string * string))
    (hdrs : gmap string string) (w : World) :
  (forall verb,
     headers (bodyRequest API verb route (@FormData D fields) hdrs) = hdrs)
  /\ postFetch API stringify server route (FormData fields) hdrs w
     = (interpret (server (length (requests w))
                     (bodyRequest API "POST" route (@FormData D fields) hdrs)
                     (Some (FormBody fields))),
        sent (bodyRequest API "POST" route (@FormData D fields) hdrs) w)
  /\ putFetch API stringify server route (FormData fields) hdrs w
     = (interpret (server (length (requests w))
                     (bodyRequest API "PUT" route (@FormData D fields) hdrs)
                     (Some (FormBody fields))),
        sent (bodyRequest API "PUT" route (@FormData D fields) hdrs) w)
  /\ patchFetch API stringify server route (FormData fields) hdrs w
     = (interpret (server (length (requests w))
                     (bodyRequest API "PATCH" route (@FormData D fields) hdrs)
                     (Some (FormBody fields))),
        sent (bodyRequest API "PATCH" route (@FormData D fields) hdrs) w)
  /\ sameSession w (exec (postFetch API stringify server route (FormData fields) hdrs) w).
Proof.
  unfold postFetch, putFetch, patchFetch, exec, sameSession.
  rewrite !(bodyFetch_sent API stringify _ server route (FormData fields) hdrs w
              (Some (FormBody fields)) eq_refl).
  repeat split.
  intros verb. simpl. unfold bodyHeaders. simpl. apply (right_id_L ∅ (∪)).
Qed.

(** X9: with any other payload that serialises to a text, [postFetch],
    [putFetch] and [patchFetch] send that text as the body of one request
    which carries every header of the caller, and the JSON content type
    unless the caller gives a [Content-Type] of its own. *)
Theorem body_helpers_send_json_text
    (API : string) (D T : Type) (stringify : D -> Stringified)
    (server : BodyServer T) (route : string) (d : D) (text : string)
    (hdrs : gmap string string) (w : World) :
  stringify d = JsonText text ->
  (forall verb,
     (forall k v, hdrs !! k = Some v ->
        headers (bodyRequest API verb route (Plain d) hdrs) !! k = Some v)
     /\ (hdrs !! "Content-Type" = None ->
           headers (bodyRequest API verb route (Plain d) hdrs) !! "Content-Type"
           = Some "application/json"))
  /\ postFetch API stringify server route (Plain d) hdrs w
     = (interpret (server (length (requests w))
                     (bodyRequest API "POST" route (Plain d) hdrs)
                     (Some (TextBody text))),
        sent (bodyRequest API "POST" route (Plain d) hdrs) w)
  /\ putFetch API stringify server route (Plain d) hdrs w
     = (interpret (server (length (requests w))
                     (bodyRequest API "PUT" route (Plain d) hdrs)
                     (Some (TextBody text))),
        sent (bodyRequest API "PUT" route (Plain d) hdrs) w)
  /\ patchFetch API stringify server route (Plain d) hdrs w
     = (interpret (server (length (requests w))
                     (bodyRequest API "PATCH" route (Plain d) hdrs)
                     (Some (TextBody text))),
        sent (bodyRequest API "PATCH" route (Plain d) hdrs) w).
Proof.
  intros H.
  assert (S : serialize stringify (Plain d) = inr (Some (TextBody text)))
    by (simpl; by rewrite H).
  unfold postFetch, putFetch, patchFetch.
  rewrite !(bodyFetch_sent API stringify _ server route (Plain d) hdrs w _ S).
  repeat split.
  - intros k v Hk. simpl. unfold bodyHeaders. simpl. by apply lookup_union_Some_l.
  - intros Hk. simpl. unfold bodyHeaders. simpl.
    rewrite lookup_union_r by exact Hk. apply lookup_singleton_eq.
Qed.

Lemma body_helpers_send_json_text_witness :
  postFetch Sample.API Demo.stringify Demo.silent "/users" (Plain (Demo.Record_ "{}")) ∅
    Sample.empty
  = (caught "Failed to fetch",
     sent (bodyRequest Sample.API "POST" "/users" (Plain (Demo.Record_ "{}")) ∅)
       Sample.empty).
Proof.
  exact (proj1 (proj2 (body_helpers_send_json_text Sample.API Demo.Value User
                  Demo.stringify Demo.silent "/users" (Demo.Record_ "{}") "{}" ∅
                  Sample.empty eq_refl))).
Defined.

(** X10: [deleteFetch] sends exactly one request, a DELETE to the base
    address followed by the route with the headers that [getFetch] would
    send, and touches neither the session state nor the store. *)
Theorem deleteFetch_sends_one_delete_request
    (API : string) (T : Type) (server : Server T)
    (route : string) (hdrs : gmap string string) (w : World) :
  sameSession w (exec (deleteFetch API server route hdrs) w)
  /\ issued w (exec (deleteFetch API server route hdrs) w) [deleteRequest API route hdrs]
  /\ url (deleteRequest API route hdrs) = API +:+ route
  /\ method (deleteRequest API route hdrs) = "DELETE"
  /\ headers (deleteRequest API route hdrs) = headers (getRequest API route hdrs).
Proof.
  unfold exec, sameSession, issued. rewrite deleteFetch_run. repeat split.
Qed.

(** ** [updateUser], [login] and [logout] together *)

Lemma updateUser_requests (JSON_stringify : User -> string) (config : AuthConfig)
    (u : User) (w : World) :
  requests (exec (updateUser JSON_stringify config u) w) = requests w.
Proof. unfold updateUser. by destruct (truthy (userKey (storage config))). Qed.

Lemma updateUser_storage (JSON_stringify : User -> string) (config : AuthConfig)
    (u : User) (w : World) :
  localStorage (exec (updateUser JSON_stringify config u) w)
  = match truthy (userKey (storage config)) with
    | Some k => <[k := JSON_stringify u]> (localStorage w)
    | None => localStorage w
    end.
Proof. unfold updateUser. by destruct (truthy (userKey (storage config))). Qed.

(** X11: [updateUser] replaces the principal and nothing else of the
    state (credential, renewal credential, [isAuthenticated] and [loading]
    are as before) and issues no request.  With a user key of non-empty
    name it writes the serialised principal under that key and leaves every
    other key alone; without one it leaves the store as it is. *)
Theorem updateUser_changes_the_principal_only
    (JSON_stringify : User -> string) (config : AuthConfig) (u : User) (w : World) :
  auth (exec (updateUser JSON_stringify config u) w)
  = {| token := token (auth w); refreshToken := refreshToken (auth w);
       user := Some u; loading := loading (auth w);
       isAuthenticated := isAuthenticated (auth w) |}
  /\ requests (exec (updateUser JSON_stringify config u) w) = requests w
  /\ (forall k, truthy (userKey (storage config)) = Some k ->
        localStorage (exec (updateUser JSON_stringify config u) w) !! k
        = Some (JSON_stringify u)
        /\ forall k', k' <> k ->
             localStorage (exec (updateUser JSON_stringify config u) w) !! k'
             = localStorage w !! k')
  /\ (truthy (userKey (storage config)) = None ->
        localStorage (exec (updateUser JSON_stringify config u) w) = localStorage w).
Proof.
  rewrite updateUser_auth, updateUser_requests, updateUser_storage.
  repeat split.
  - rewrite H. apply lookup_insert_eq.
  - intros k' Hk. rewrite H. by apply lookup_insert_ne.
  - by intros ->.
Qed.

(** X12: the principal written by [updateUser] survives a reload.  In a
    session whose credential is in the store, with [autoVerify] off, a
    user key of non-empty name other than the token key and a principal
    that survives the JSON round trip, a fresh start after [updateUser]
    restores that principal with the stored credential, authenticated,
    without any request. *)
Theorem updateUser_then_initialize_restores_principal
    (API : string) (JSON_stringify : User -> string)
    (JSON_parse : string -> option User)
    (config : AuthConfig) (backend : Backend) (uk t : string) (u : User) (w : World) :
  autoVerify config = false ->
  truthy (userKey (storage config)) = Some uk ->
  uk <> tokenKey (storage config) ->
  truthy (localStorage w !! tokenKey (storage config)) = Some t ->
  JSON_stringify u <> "" ->
  JSON_parse (JSON_stringify u) = Some u ->
  user (auth (initialize API JSON_stringify JSON_parse config backend
                (exec (updateUser JSON_stringify config u) w))) = Some u
  /\ token (auth (initialize API JSON_stringify JSON_parse config backend
                (exec (updateUser JSON_stringify config u) w))) = Some t
  /\ isAuthenticated (auth (initialize API JSON_stringify JSON_parse config backend
                (exec (updateUser JSON_stringify config u) w))) = true
  /\ loading (auth (initialize API JSON_stringify JSON_parse config backend
                (exec (updateUser JSON_stringify config u) w))) = false
  /\ requests (initialize API JSON_stringify JSON_parse config backend
                (exec (updateUser JSON_stringify config u) w)) = requests w.
Proof.
  intros Hauto Huk Hne Ht Hs Hparse.
  assert (Ht' : truthy (localStorage (exec (updateUser JSON_stringify config u) w)
                          !! tokenKey (storage config)) = Some t).
  { rewrite updateUser_storage, Huk. by rewrite lookup_insert_ne. }
  rewrite (initialize_unverified API JSON_stringify JSON_parse config backend _ t
             Hauto Ht').
  simpl. rewrite updateUser_requests. repeat split.
  rewrite Huk. simpl. rewrite updateUser_storage, Huk, lookup_insert_eq.
  by rewrite (truthy_nonempty _ Hs).
Qed.

Lemma updateUser_then_initialize_restores_principal_witness :
  user (auth (initialize Sample.API Sample.stringify Sample.parse Sample.unverified
                Sample.strict
                (exec (updateUser Sample.stringify Sample.unverified Sample.alice)
                   Sample.plainSession))) = Some Sample.alice.
Proof.
  refine (proj1 (updateUser_then_initialize_restores_principal Sample.API
                   Sample.stringify Sample.parse Sample.unverified Sample.strict
                   "user" "abc" Sample.alice Sample.plainSession _ _ _ _ _ _)).
  - reflexivity.
  - reflexivity.
  - discriminate.
  - reflexivity.
  - discriminate.
  - reflexivity.
Defined.

(** X13: after [logout] a reload finds no session.  Whatever the
    configuration, the remote side and the state before, a fresh start
    after [logout] settles unauthenticated with [loading] false and
    nothing restored, issues no request and leaves the store as [logout]
    left it. *)
Theorem logout_then_initialize_is_unauthenticated
    (API : string) (JSON_stringify : User -> string)
    (JSON_parse : string -> option User)
    (config : AuthConfig) (backend : Backend) (w : World) :
  auth (initialize API JSON_stringify JSON_parse config backend
          (exec (logout config) w))
  = {| token := None; refreshToken := None; user := None;
       loading := false; isAuthenticated := false |}
  /\ requests (initialize API JSON_stringify JSON_parse config backend
                 (exec (logout config) w)) = requests w
  /\ localStorage (initialize API JSON_stringify JSON_parse config backend
                     (exec (logout config) w))
     = localStorage (exec (logout config) w).
Proof.
  rewrite initialize_without_credential.
  - simpl. rewrite logout_requests. repeat split.
  - rewrite logout_removes; [reflexivity | by left].
Qed.

(** X14: [logout] undoes [login] completely.  When each optional argument
    that is supplied has a storage key of non-empty name, logging in and
    then out leaves exactly the world that logging out alone would have
    left: nothing of the login stays in the state or in the store. *)
Theorem logout_undoes_login
    (JSON_stringify : User -> string) (config : AuthConfig)
    (t : string) (r : option string) (u : option User) (w : World) :
  (truthy r <> None -> exists k, refreshTokenKey (storage config) = Some k /\ k <> "") ->
  (u <> None -> exists k, userKey (storage config) = Some k /\ k <> "") ->
  exec (logout config) (exec (login JSON_stringify config t r u) w)
  = exec (logout config) w.
Proof.
  intros Hr Hu. apply world_eq.
  - rewrite !logout_auth, login_auth. reflexivity.
  - apply map_eq. intros k.
    destruct (decide (cleared config k)) as [H | H].
    + by rewrite !logout_removes.
    + rewrite !logout_keeps by exact H.
      rewrite login_storage. cbv zeta.
      assert (K1 : tokenKey (storage config) <> k)
        by (intros <-; apply H; by left).
      assert (K2 : truthy r <> None -> key_coerce (refreshTokenKey (storage config)) <> k).
      { intros Hs <-. destruct (Hr Hs) as (k' & E & Hk').
        apply H. right. left. rewrite E. simpl. by apply truthy_nonempty. }
      assert (K3 : u <> None -> key_coerce (userKey (storage config)) <> k).
      { intros Hs <-. destruct (Hu Hs) as (k' & E & Hk').
        apply H. right. right. rewrite E. simpl. by apply truthy_nonempty. }
      destruct (truthy r) as [r'|], u as [u'|];
        rewrite ?lookup_insert_ne; auto; try apply K2; try apply K3; discriminate.
  - by rewrite !logout_requests, login_requests.
Qed.

Lemma logout_undoes_login_witness :
  exec (logout defaultAuthConfig)
    (exec (login Sample.stringify defaultAuthConfig "abc" (Some "r") (Some Sample.alice))
       Sample.seeded)
  = exec (logout defaultAuthConfig) Sample.seeded.
Proof.
  apply (logout_undoes_login Sample.stringify defaultAuthConfig "abc" (Some "r")
           (Some Sample.alice) Sample.seeded).
  - intros _. exists "refreshToken". split; [reflexivity | discriminate].
  - intros _. exists "user". split; [reflexivity | discriminate].
Defined.

(** X15: with a storage record that names no renewal key, and in which
    neither the token key nor the user key is literally [undefined], a
    login that supplies a non-empty renewal credential leaves under the key
    [undefined] an entry that [logout] never removes.  The entry is the
    renewal credential; when the record names no user key either and a
    principal is supplied, it is the serialised principal, written over the
    renewal credential under the same key. *)
Theorem renewal_credential_without_key_survives_logout
    (JSON_stringify : User -> string) (config : AuthConfig)
    (t r : string) (u : option User) (w : World) :
  refreshTokenKey (storage config) = None ->
  tokenKey (storage config) <> "undefined" ->
  userKey (storage config) <> Some "undefined" ->
  r <> "" ->
  localStorage (exec (login JSON_stringify config t (Some r) u) w) !! "undefined"
  = Some (match u, userKey (storage config) with
          | Some u', None => JSON_stringify u'
          | _, _ => r
          end)
  /\ localStorage
       (exec (logout config) (exec (login JSON_stringify config t (Some r) u) w))
     !! "undefined"
     = Some (match u, userKey (storage config) with
             | Some u', None => JSON_stringify u'
             | _, _ => r
             end).
Proof.
  intros Hrk Hne1 Hne2 Hr.
  assert (L : localStorage (exec (login JSON_stringify config t (Some r) u) w)
              !! "undefined"
              = Some (match u, userKey (storage config) with
                      | Some u', None => JSON_stringify u'
                      | _, _ => r
                      end)).
  { rewrite login_storage, Hrk, (truthy_nonempty r Hr). simpl key_coerce. cbv zeta.
    destruct u as [u'|]; [|apply lookup_insert_eq].
    destruct (userKey (storage config)) as [uk|]; simpl.
    - rewrite lookup_insert_ne by congruence. apply lookup_insert_eq.
    - apply lookup_insert_eq. }
  split; [exact L|].
  rewrite logout_keeps; [exact L|].
  unfold cleared. rewrite Hrk. simpl.
  intros [E | [E | E]]; [congruence | discriminate |].
  apply truthy_Some in E as [E _]. congruence.
Qed.

Lemma renewal_credential_without_key_survives_logout_witness :
  localStorage
    (exec (logout Demo.tokenOnly)
       (exec (login Sample.stringify Demo.tokenOnly "abc" (Some "r") None) Sample.empty))
  !! "undefined" = Some "r".
Proof.
  refine (proj2 (renewal_credential_without_key_survives_logout Sample.stringify
                   Demo.tokenOnly "abc" "r" None Sample.empty _ _ _ _)).
  - reflexivity.
  - discriminate.
  - discriminate.
  - discriminate.
Defined.

(** X16: [login] is idempotent: a second login with the same arguments
    changes nothing, whatever the configuration (colliding keys
    included). *)
Theorem login_is_idempotent
    (JSON_stringify : User -> string) (config : AuthConfig)
    (t : string) (r : option string) (u : option User) (w : World) :
  exec (login JSON_stringify config t r u)
    (exec (login JSON_stringify config t r u) w)
  = exec (login JSON_stringify config t r u) w.
Proof.
  apply world_eq.
  - rewrite !login_auth. simpl. by destruct (truthy r), u.
  - rewrite !login_storage. cbv zeta.
    apply map_eq. intros k.
    destruct (truthy r), u; rewrite ?lookup_insert;
      repeat case_decide; congruence.
  - by rewrite !login_requests.
Qed.

(** ** [refreshAccessToken] *)

(** X17: a refresh that is not accepted (rejected, no answer, or an
    answer that cannot be parsed) ends in a full logout: with a renewal
    credential in the closure and a refresh endpoint configured,
    [refreshAccessToken] sends the one refresh request, returns failure,
    clears credential, renewal credential, principal and
    [isAuthenticated] (leaving [loading] as it was) and removes the
    configured keys from the store. *)
Theorem refreshAccessToken_not_accepted_logs_out
    (API : string) (JSON_stringify : User -> string)
    (config : AuthConfig) (backend : Backend)
    (view : AuthState) (w : World) (rt route : string) :
  truthy (refreshToken view) = Some rt ->
  truthy (refresh (endpoints config)) = Some route ->
  acceptance (refreshAnswer API backend route rt w) = None ->
  result (refreshAccessToken API JSON_stringify config backend view) w = false
  /\ auth (exec (refreshAccessToken API JSON_stringify config backend view) w)
     = {| token := None; refreshToken := None; user := None;
          loading := loading (auth w); isAuthenticated := false |}
  /\ (forall k, cleared config k ->
        localStorage (exec (refreshAccessToken API JSON_stringify config backend view) w)
          !! k = None)
  /\ issued w (exec (refreshAccessToken API JSON_stringify config backend view) w)
       [refreshRequest API route rt].
Proof.
  intros Hrt Hroute Hno.
  pose proof (refresh_rejected API JSON_stringify config backend view w rt route
                Hrt Hroute Hno) as E.
  apply run_eq in E as [-> ->].
  unfold issued. rewrite logout_auth, logout_requests.
  repeat split. intros k Hk. by apply logout_removes.
Qed.

Lemma refreshAccessToken_not_accepted_logs_out_witness :
  result (refreshAccessToken Sample.API Sample.stringify defaultAuthConfig
            (mkBackend Sample.accepting Sample.unreachable) (auth Sample.session))
         Sample.session = false.
Proof.
  refine (proj1 (refreshAccessToken_not_accepted_logs_out Sample.API Sample.stringify
                   defaultAuthConfig (mkBackend Sample.accepting Sample.unreachable)
                   (auth Sample.session) Sample.session "r" "/auth/refresh" _ _ _)).
  - reflexivity.
  - reflexivity.
  - reflexivity.
Defined.

(** X18: an accepted refresh whose payload carries only a new credential
    replaces the credential in the state and under the token key, raises
    [isAuthenticated], and leaves the renewal credential, the principal,
    [loading] and every other key of the store as they were. *)
Theorem refreshAccessToken_accepted_keeps_what_is_omitted
    (API : string) (JSON_stringify : User -> string)
    (config : AuthConfig) (backend : Backend)
    (view : AuthState) (w : World) (rt route : string) (d : RefreshData) :
  truthy (refreshToken view) = Some rt ->
  truthy (refresh (endpoints config)) = Some route ->
  acceptance (refreshAnswer API backend route rt w) = Some d ->
  truthy (r_refreshToken d) = None ->
  r_user d = None ->
  result (refreshAccessToken API JSON_stringify config backend view) w = true
  /\ auth (exec (refreshAccessToken API JSON_stringify config backend view) w)
     = {| token := Some (r_token d); refreshToken := refreshToken (auth w);
          user := user (auth w); loading := loading (auth w);
          isAuthenticated := true |}
  /\ localStorage (exec (refreshAccessToken API JSON_stringify config backend view) w)
     = <[tokenKey (storage config) := r_token d]> (localStorage w)
  /\ issued w (exec (refreshAccessToken API JSON_stringify config backend view) w)
       [refreshRequest API route rt].
Proof.
  intros Hrt Hroute Hacc Hr Hu.
  pose proof (refresh_accepted API JSON_stringify config backend view w rt route d
                Hrt Hroute Hacc) as E.
  apply run_eq in E as [-> ->].
  unfold issued. rewrite login_auth, login_storage, login_requests, Hr, Hu.
  repeat split.
Qed.

Lemma refreshAccessToken_accepted_keeps_what_is_omitted_witness :
  refreshToken
    (auth (exec (refreshAccessToken Sample.API Sample.stringify defaultAuthConfig
                   Sample.strict (auth Sample.session)) Sample.session))
  = Some "r".
Proof.
  pose proof (refreshAccessToken_accepted_keeps_what_is_omitted Sample.API
                Sample.stringify defaultAuthConfig Sample.strict
                (auth Sample.session) Sample.session "r" "/auth/refresh" Sample.fresh
                eq_refl eq_refl eq_refl eq_refl eq_refl) as (_ & H & _).
  by rewrite H.
Defined.

(** X19: the operations never issue more requests than their protocol
    has.  [refreshAccessToken] issues none when the closure has no renewal
    credential or no refresh endpoint is configured, and one otherwise;
    [verifyToken] issues none without a credential at hand, and otherwise
    the verify request followed by at most one more; requests already in
    the log are never altered. *)
Theorem session_operations_request_budget
    (API : string) (JSON_stringify : User -> string)
    (config : AuthConfig) (backend : Backend)
    (view : AuthState) (arg : option string) (w : World) :
  (exists l,
     issued w (exec (refreshAccessToken API JSON_stringify config backend view) w) l
     /\ match truthy (refreshToken view), truthy (refresh (endpoints config)) with
        | Some rt, Some route => l = [refreshRequest API route rt]
        | _, _ => l = []
        end)
  /\ (exists l,
     issued w (exec (verifyToken API JSON_stringify config backend view arg) w) l
     /\ match truthy (or_else arg (token view)) with
        | Some c => exists rest, l = verifyRequest API config c :: rest
                                 /\ (length rest <= 1)%nat
        | None => l = []
        end).
Proof.
  assert (R : forall w0, exists l,
     issued w0 (exec (refreshAccessToken API JSON_stringify config backend view) w0) l
     /\ match truthy (refreshToken view), truthy (refresh (endpoints config)) with
        | Some rt, Some route => l = [refreshRequest API route rt]
        | _, _ => l = []
        end).
  { intros w0. unfold issued.
    destruct (truthy (refreshToken view)) as [rt|] eqn:Hrt;
      [destruct (truthy (refresh (endpoints config))) as [route|] eqn:Hroute|].
    - exists [refreshRequest API route rt]. split; [|reflexivity].
      destruct (acceptance (refreshAnswer API backend route rt w0)) as [d|] eqn:Hd.
      + unfold exec at 1. rewrite (refresh_accepted _ _ _ _ _ _ _ _ _ Hrt Hroute Hd).
        simpl. by rewrite login_requests.
      + unfold exec at 1. rewrite (refresh_rejected _ _ _ _ _ _ _ _ Hrt Hroute Hd).
        simpl. by rewrite logout_requests.
    - exists []. unfold exec. rewrite refresh_unavailable by auto.
      simpl. by rewrite app_nil_r.
    - exists []. unfold exec. rewrite refresh_unavailable by auto.
      simpl. by rewrite app_nil_r. }
  split; [apply R|].
  unfold issued.
  destruct (truthy (or_else arg (token view))) as [c|] eqn:Hc.
  - destruct (acceptance (verifyAnswer API config backend c w)) as [u|] eqn:Hacc.
    + exists [verifyRequest API config c]. split; [|exists []; split; [reflexivity|simpl; lia]].
      unfold exec at 1.
      rewrite (verify_accepted API JSON_stringify config backend view arg w c u Hc Hacc).
      by destruct (truthy (userKey (storage config))).
    + destruct (R (sent (verifyRequest API config c) w)) as (l & Hl & Hshape).
      unfold issued, exec in Hl.
      exists (verifyRequest API config c :: l). split.
      * unfold exec at 1.
        rewrite (verify_not_accepted API JSON_stringify config backend view arg w c Hc Hacc).
        cbv zeta.
        destruct (refreshAccessToken _ _ _ _ _ _) as [[] w2]; simpl in *.
        -- rewrite Hl. by rewrite <- app_assoc.
        -- rewrite giveUp_requests, Hl. by rewrite <- app_assoc.
      * exists l. split; [reflexivity|].
        destruct (truthy (refreshToken view)), (truthy (refresh (endpoints config)));
          subst l; simpl; lia.
  - exists []. unfold exec. rewrite verify_without_credential by exact Hc.
    simpl. by rewrite app_nil_r.
Qed.

(** ** [verifyToken] *)

(** How the verdict of [verifyToken] relates to the state it leaves. *)
Lemma verifyToken_verdict
    (API : string) (JSON_stringify : User -> string)
    (config : AuthConfig) (backend : Backend)
    (view : AuthState) (arg : option string) (w : World) :
  (result (verifyToken API JSON_stringify config backend view arg) w = true ->
     isAuthenticated
       (auth (exec (verifyToken API JSON_stringify config backend view arg) w)) = true)
  /\ (result (verifyToken API JSON_stringify config backend view arg) w = false ->
      truthy (or_else arg (token view)) <> None ->
      auth (exec (verifyToken API JSON_stringify config backend view arg) w)
      = {| token := None; refreshToken := None; user := None;
           loading := false; isAuthenticated := false |}
      /\ forall k, cleared config k ->
           localStorage (exec (verifyToken API JSON_stringify config backend view arg) w)
             !! k = None).
Proof.
  unfold result, exec.
  destruct (truthy (or_else arg (token view))) as [c|] eqn:Hc.
  - destruct (acceptance (verifyAnswer API config backend c w)) as [u|] eqn:Hacc.
    + rewrite (verify_accepted API JSON_stringify config backend view arg w c u Hc Hacc).
      simpl. split; [|discriminate].
      intros _. by destruct (truthy (userKey (storage config))).
    + rewrite (verify_not_accepted API JSON_stringify config backend view arg w c Hc Hacc).
      cbv zeta.
      destruct (refreshAccessToken _ _ _ _ _ _) as [[] w2] eqn:E; simpl.
      * split; [|discriminate]. intros _.
        destruct (truthy (refreshToken view)) as [rt|] eqn:Hrt;
          [destruct (truthy (refresh (endpoints config))) as [route|] eqn:Hroute|].
        -- destruct (acceptance (refreshAnswer API backend route rt
                       (sent (verifyRequest API config c) w))) as [d|] eqn:Hd.
           ++ rewrite (refresh_accepted _ _ _ _ _ _ _ _ _ Hrt Hroute Hd) in E.
              injection E as <-. by rewrite login_auth.
           ++ rewrite (refresh_rejected _ _ _ _ _ _ _ _ Hrt Hroute Hd) in E.
              discriminate.
        -- rewrite refresh_unavailable in E by auto. discriminate.
        -- rewrite refresh_unavailable in E by auto. discriminate.
      * split; [discriminate|]. intros _ _.
        rewrite giveUp_auth. split; [reflexivity|].
        intros k Hk. by apply giveUp_removes.
  - rewrite verify_without_credential by exact Hc. simpl.
    split; [discriminate|]. intros _ H. by destruct H.
Qed.

(** X20: the verdict of [verifyToken] and the state agree.  When it
    returns success the state is authenticated.  When it returns failure
    after having had a credential to check, the session is gone:
    credential, renewal credential and principal are null,
    [isAuthenticated] and [loading] are false, and the configured keys
    are removed from the store.  So with a credential at hand the value
    returned is the value of [isAuthenticated] afterwards. *)
Theorem verifyToken_verdict_matches_state
    (API : string) (JSON_stringify : User -> string)
    (config : AuthConfig) (backend : Backend)
    (view : AuthState) (arg : option string) (w : World) :
  (result (verifyToken API JSON_stringify config backend view arg) w = true ->
     isAuthenticated
       (auth (exec (verifyToken API JSON_stringify config backend view arg) w)) = true)
  /\ (result (verifyToken API JSON_stringify config backend view arg) w = false ->
      truthy (or_else arg (token view)) <> None ->
      auth (exec (verifyToken API JSON_stringify config backend view arg) w)
      = {| token := None; refreshToken := None; user := None;
           loading := false; isAuthenticated := false |}
      /\ forall k, cleared config k ->
           localStorage (exec (verifyToken API JSON_stringify config backend view arg) w)
             !! k = None)
  /\ (truthy (or_else arg (token view)) <> None ->
      isAuthenticated
        (auth (exec (verifyToken API JSON_stringify config backend view arg) w))
      = result (verifyToken API JSON_stringify config backend view arg) w).
Proof.
  destruct (verifyToken_verdict API JSON_stringify config backend view arg w)
    as [Htrue Hfalse].
  split; [exact Htrue|]. split; [exact Hfalse|].
  intros Hc.
  destruct (result (verifyToken API JSON_stringify config backend view arg) w) eqn:E.
  - by apply Htrue.
  - destruct (Hfalse eq_refl Hc) as [-> _]. reflexivity.
Qed.

(** X21: without a credential at hand (no argument or an empty one, and
    no credential in the closure) [verifyToken] returns failure, issues no
    request and only lowers [loading]: credential, principal and
    [isAuthenticated] stay as they were, and so does the store.  An empty
    argument is the same as no argument. *)
Theorem verifyToken_without_credential_only_lowers_loading
    (API : string) (JSON_stringify : User -> string)
    (config : AuthConfig) (backend : Backend)
    (view : AuthState) (arg : option string) (w : World) :
  verifyToken API JSON_stringify config backend view (Some "") w
  = verifyToken API JSON_stringify config backend view None w
  /\ (truthy arg = None -> truthy (token view) = None ->
      verifyToken API JSON_stringify config backend view arg w
      = (false,
         {| auth := {| token := token (auth w); refreshToken := refreshToken (auth w);
                       user := user (auth w); loading := false;
                       isAuthenticated := isAuthenticated (auth w) |};
            localStorage := localStorage w;
            requests := requests w |})).
Proof.
  split; [reflexivity|].
  intros Ha Hv. rewrite verify_without_credential; [reflexivity|].
  unfold or_else. by rewrite Ha.
Qed.

(** X22: an accepted verification stores the returned principal in the
    state and, when the user key has a non-empty name, its serialised form
    under that key; it lowers [loading], raises [isAuthenticated], leaves
    the credential and renewal credential cells and every other key of the
    store alone, and issues the verify request only. *)
Theorem verifyToken_accepted_persists_principal
    (API : string) (JSON_stringify : User -> string)
    (config : AuthConfig) (backend : Backend)
    (view : AuthState) (arg : option string) (w : World) (c : string) (u : User) :
  truthy (or_else arg (token view)) = Some c ->
  acceptance (verifyAnswer API config backend c w) = Some u ->
  auth (exec (verifyToken API JSON_stringify config backend view arg) w)
  = {| token := token (auth w); refreshToken := refreshToken (auth w);
       user := Some u; loading := false; isAuthenticated := true |}
  /\ localStorage (exec (verifyToken API JSON_stringify config backend view arg) w)
     = match truthy (userKey (storage config)) with
       | Some k => <[k := JSON_stringify u]> (localStorage w)
       | None => localStorage w
       end
  /\ issued w (exec (verifyToken API JSON_stringify config backend view arg) w)
       [verifyRequest API config c].
Proof.
  intros Hc Hacc. unfold exec, issued.
  rewrite (verify_accepted API JSON_stringify config backend view arg w c u Hc Hacc).
  by destruct (truthy (userKey (storage config))).
Qed.

Lemma verifyToken_accepted_persists_principal_witness :
  localStorage
    (exec (verifyToken Sample.API Sample.stringify defaultAuthConfig Sample.lenient
             (auth Sample.session) None) Sample.session)
  = <["user" := Sample.stringify Sample.alice]> (localStorage Sample.session).
Proof.
  exact (proj1 (proj2 (verifyToken_accepted_persists_principal Sample.API
                  Sample.stringify defaultAuthConfig Sample.lenient
                  (auth Sample.session) None Sample.session "abc" Sample.alice
                  eq_refl eq_refl))).
Defined.

(** ** Start-up, case by case *)


(** X23: with [autoVerify] on, a credential in the store and a verify
    endpoint that accepts it, start-up sends the one verify request bearing
    that credential and settles authenticated: the credential and the
    stored renewal credential are restored, the principal is the one the
    endpoint returned (persisted under the user key when it has a
    non-empty name), and [loading] is false. *)
Theorem initialize_accepted_verification_authenticates
    (API : string) (JSON_stringify : User -> string)
    (JSON_parse : string -> option User)
    (config : AuthConfig) (backend : Backend) (w : World) (t : string) (u : User) :
  autoVerify config = true ->
  truthy (localStorage w !! tokenKey (storage config)) = Some t ->
  acceptance (verifyServer backend (length (requests w)) (verifyRequest API config t))
    = Some u ->
  auth (initialize API JSON_stringify JSON_parse config backend w)
  = {| token := Some t;
       refreshToken :=
         truthy (localStorage w !! default "" (truthy (refreshTokenKey (storage config))));
       user := Some u; loading := false; isAuthenticated := true |}
  /\ issued w (initialize API JSON_stringify JSON_parse config backend w)
       [verifyRequest API config t]
  /\ localStorage (initialize API JSON_stringify JSON_parse config backend w)
     = match truthy (userKey (storage config)) with
       | Some k => <[k := JSON_stringify u]> (localStorage w)
       | None => localStorage w
       end.
Proof.
  intros Hauto Ht Hacc.
  rewrite (initialize_verified API JSON_stringify JSON_parse config backend w t Hauto Ht).
  destruct (truthy_Some _ _ Ht) as [_ Hne].
  unfold exec, issued.
  rewrite (verify_accepted API JSON_stringify config backend initialState (Some t)
             {| auth := restored JSON_parse config t w;
                localStorage := localStorage w;
                requests := requests w |} t u
             (truthy_or_else_l _ _ _ (truthy_nonempty t Hne)) Hacc).
  by destruct (truthy (userKey (storage config))).
Qed.

Lemma initialize_accepted_verification_authenticates_witness :
  auth (initialize Sample.API Sample.stringify Sample.parse defaultAuthConfig
          Sample.lenient Sample.seeded)
  = {| token := Some "abc"; refreshToken := Some "r"; user := Some Sample.alice;
       loading := false; isAuthenticated := true |}.
Proof.
  exact (proj1 (initialize_accepted_verification_authenticates Sample.API
                  Sample.stringify Sample.parse defaultAuthConfig Sample.lenient
                  Sample.seeded "abc" Sample.alice eq_refl eq_refl eq_refl)).
Defined.

(** X24: a stored principal that cannot be parsed does not prevent the
    restore.  With [autoVerify] off and a credential in the store, start-up
    restores the credential (and the stored renewal credential), settles
    authenticated with [loading] false and a null principal, issues no
    request and leaves the store, unparsable entry included, as it is. *)
Theorem initialize_survives_unparsable_principal
    (API : string) (JSON_stringify : User -> string)
    (JSON_parse : string -> option User)
    (config : AuthConfig) (backend : Backend) (w : World) (t s : string) :
  autoVerify config = false ->
  truthy (localStorage w !! tokenKey (storage config)) = Some t ->
  localStorage w !! default "" (truthy (userKey (storage config))) = Some s ->
  JSON_parse s = None ->
  initialize API JSON_stringify JSON_parse config backend w
  = {| auth := {| token := Some t;
                  refreshToken :=
                    truthy (localStorage w
                              !! default "" (truthy (refreshTokenKey (storage config))));
                  user := None; loading := false; isAuthenticated := true |};
       localStorage := localStorage w;
       requests := requests w |}.
Proof.
  intros Hauto Ht Hs Hparse.
  rewrite (initialize_unverified API JSON_stringify JSON_parse config backend w t Hauto Ht).
  unfold restored. simpl. rewrite Hs. simpl.
  destruct (decide (s = "")); by rewrite ?Hparse.
Qed.

Lemma initialize_survives_unparsable_principal_witness :
  user (auth (initialize Sample.API Sample.stringify Sample.parse Sample.unverified
                Sample.strict Demo.corrupt)) = None.
Proof.
  rewrite (initialize_survives_unparsable_principal Sample.API Sample.stringify
             Sample.parse Sample.unverified Sample.strict Demo.corrupt "abc" "{oops"
             eq_refl eq_refl eq_refl eq_refl).
  reflexivity.
Defined.

(** X25: without a usable credential in the store (no entry under the
    token key, or the empty string) start-up restores nothing, even when a
    renewal credential and a principal are stored: it settles
    unauthenticated with [loading] false, issues no request and leaves the
    store as it is. *)
Theorem initialize_without_credential_restores_nothing
    (API : string) (JSON_stringify : User -> string)
    (JSON_parse : string -> option User)
    (config : AuthConfig) (backend : Backend) (w : World) :
  localStorage w !! tokenKey (storage config) = None
  \/ localStorage w !! tokenKey (storage config) = Some "" ->
  initialize API JSON_stringify JSON_parse config backend w
  = {| auth := {| token := None; refreshToken := None; user := None;
                  loading := false; isAuthenticated := false |};
       localStorage := localStorage w;
       requests := requests w |}.
Proof.
  intros H. apply initialize_without_credential.
  by destruct H as [-> | ->].
Qed.

Lemma initialize_without_credential_restores_nothing_witness :
  auth (initialize Sample.API Sample.stringify Sample.parse defaultAuthConfig
          Sample.lenient Demo.blank)
  = {| token := None; refreshToken := None; user := None;
       loading := false; isAuthenticated := false |}.
Proof.
  rewrite (initialize_without_credential_restores_nothing Sample.API Sample.stringify
             Sample.parse defaultAuthConfig Sample.lenient Demo.blank (or_intror eq_refl)).
  reflexivity.
Defined.


(** X27: with [autoVerify] off a reload is stable: starting up a second
    time over the world left by a first start-up gives that same world. *)
Theorem initialize_unverified_is_stable
    (API : string) (JSON_stringify : User -> string)
    (JSON_parse : string -> option User)
    (config : AuthConfig) (backend : Backend) (w : World) :
  autoVerify config = false ->
  initialize API JSON_stringify JSON_parse config backend
    (initialize API JSON_stringify JSON_parse config backend w)
  = initialize API JSON_stringify JSON_parse config backend w.
Proof.
  intros Hauto.
  destruct (truthy (localStorage w !! tokenKey (storage config))) as [t|] eqn:Ht.
  - rewrite (initialize_unverified API JSON_stringify JSON_parse config backend w t
               Hauto Ht).
    match goal with
    | |- initialize _ _ _ _ _ ?W = _ =>
        exact (initialize_unverified API JSON_stringify JSON_parse config backend W t
                 Hauto Ht)
    end.
  - rewrite (initialize_without_credential API JSON_stringify JSON_parse config
               backend w Ht).
    match goal with
    | |- initialize _ _ _ _ _ ?W = _ =>
        exact (initialize_without_credential API JSON_stringify JSON_parse config
                 backend W Ht)
    end.
Qed.

Lemma initialize_unverified_is_stable_witness :
  initialize Sample.API Sample.stringify Sample.parse Sample.unverified Sample.strict
    (initialize Sample.API Sample.stringify Sample.parse Sample.unverified
       Sample.strict Sample.seeded)
  = initialize Sample.API Sample.stringify Sample.parse Sample.unverified
      Sample.strict Sample.seeded.
Proof.
  exact (initialize_unverified_is_stable Sample.API Sample.stringify Sample.parse
           Sample.unverified Sample.strict Sample.seeded eq_refl).
Defined.

(** ** The guard after its check *)

(** X28: what the guard shows once its check is over.  From a settled
    snapshot ([loading] false) the guard's effect lowers [isChecking], and
    the next rendering redirects to ["/"] when the snapshot has no
    credential (without any request) or when the verification of its
    credential returns failure, and shows the protected subtree when the
    verify endpoint accepts the credential. *)
Theorem guard_decides_after_its_check
    (API : string) (JSON_stringify : User -> string)
    (config : AuthConfig) (backend : Backend) (w : World) (isChecking : bool) :
  loading (auth w) = false ->
  result (guardEffect API JSON_stringify config backend (auth w) isChecking) w = false
  /\ (truthy (token (auth w)) = None ->
      exec (guardEffect API JSON_stringify config backend (auth w) isChecking) w = w
      /\ ProtectedRoute (auth w) false = Navigate "/" true)
  /\ (forall t,
        truthy (token (auth w)) = Some t ->
        result (verifyToken API JSON_stringify config backend (auth w) (Some t)) w = false ->
        ProtectedRoute
          (auth (exec (guardEffect API JSON_stringify config backend (auth w) isChecking) w))
          false
        = Navigate "/" true)
  /\ (forall t u,
        truthy (token (auth w)) = Some t ->
        acceptance (verifyAnswer API config backend t w) = Some u ->
        ProtectedRoute
          (auth (exec (guardEffect API JSON_stringify config backend (auth w) isChecking) w))
          false
        = Outlet).
Proof.
  intros Hl.
  destruct (guardEffect_lowers API JSON_stringify config backend (auth w) isChecking w Hl)
    as [Hres Hnone].
  split; [exact Hres|]. split; [|split].
  - intros Ht. split; [by apply Hnone|].
    unfold ProtectedRoute. by rewrite Hl, Ht.
  - intros t Ht Hfalse.
    assert (E : exec (guardEffect API JSON_stringify config backend (auth w) isChecking) w
                = exec (verifyToken API JSON_stringify config backend (auth w) (Some t)) w).
    { unfold guardEffect, checkAuth. rewrite Hl, Ht.
      unfold exec, bind, ret. by destruct (verifyToken _ _ _ _ _ _ _). }
    rewrite E.
    destruct (truthy_Some _ _ Ht) as [_ Hne].
    destruct (verifyToken_verdict API JSON_stringify config backend (auth w) (Some t) w)
      as [_ H].
    destruct (H Hfalse) as [-> _].
    + rewrite (truthy_or_else_l _ _ t (truthy_nonempty t Hne)). discriminate.
    + reflexivity.
  - intros t u Ht Hacc.
    assert (E : exec (guardEffect API JSON_stringify config backend (auth w) isChecking) w
                = exec (verifyToken API JSON_stringify config backend (auth w) (Some t)) w).
    { unfold guardEffect, checkAuth. rewrite Hl, Ht.
      unfold exec, bind, ret. by destruct (verifyToken _ _ _ _ _ _ _). }
    rewrite E.
    destruct (truthy_Some _ _ Ht) as [_ Hne].
    unfold exec.
    rewrite (verify_accepted API JSON_stringify config backend (auth w) (Some t) w t u
               (truthy_or_else_l _ _ t (truthy_nonempty t Hne)) Hacc).
    unfold ProtectedRoute.
    destruct (truthy (userKey (storage config))); simpl; by rewrite Ht.
Qed.

Lemma guard_decides_after_its_check_witness :
  ProtectedRoute (auth Sample.empty) true = Spinner
  /\ result (guardEffect Sample.API Sample.stringify defaultAuthConfig Sample.strict
              (auth (initialize Sample.API Sample.stringify Sample.parse
                       defaultAuthConfig Sample.strict Sample.empty)) true)
       (initialize Sample.API Sample.stringify Sample.parse defaultAuthConfig
          Sample.strict Sample.empty) = false.
Proof.
  split; [reflexivity|].
  exact (proj1 (guard_decides_after_its_check Sample.API Sample.stringify
                  defaultAuthConfig Sample.strict
                  (initialize Sample.API Sample.stringify Sample.parse
                     defaultAuthConfig Sample.strict Sample.empty) true eq_refl)).
Defined.
